(** * github-music-api: sonification and PCM/WAV encoding

    A shallow embedding of the music-generation core of the NestJS service
    [GithubService].  The repository holds two revisions of
    [github/github.service.ts]:

    - [src/unnamed/part_001], the revision whose [generateCustomMusic]
      renders instruments, tempo, chords and volume (module [Part001]);
    - [src/src/github/github.service.ts], the refactored revision whose
      [generateCustomMusic] delegates to [generateAndSendMusic]
      (module [Service]).

    Number model.  A JavaScript [number] is embedded as a real number
    ([R]): every arithmetic expression of the source is transcribed
    operator by operator, with the source's association, and is read with
    exact arithmetic, so binary64 rounding, NaN and the infinities are
    outside the model.  Quantities that the source only ever uses as
    integers (contribution counts, the instrument selector, loop indices,
    array lengths, header fields) are embedded as [Z] or [nat], which keeps
    the control flow and the byte layout computable.  [Math.sin],
    [Math.asin], [Math.exp] and [Math.PI] are the functions of the
    standard library of reals; [Math.random] is an explicit oracle. *)

From Stdlib Require Import String Ascii.
From Stdlib Require Import Reals Lra Lia ZArith List Bool.
From Stdlib Require Import Zfloor.
Import ListNotations.

Local Open Scope R_scope.

(** ** JavaScript numeric primitives used by the service *)

Module JS.

(** [Math.floor]. *)
Definition Math_floor (x : R) : Z := Zfloor x.

(** [Math.round]: the nearest integer, halves rounded up. *)
Definition Math_round (x : R) : Z := Zfloor (x + / 2).

(** ECMAScript's [ToIntegerOrInfinity] on a finite number: the
    fractional part is dropped (rounding toward zero).  Typed-array
    stores and [>>>] both start with this conversion. *)
Definition truncate (x : R) : Z :=
  if Rle_dec 0 x then Zfloor x else Zceil x.

(** [Math.sign]. *)
Definition Math_sign (x : R) : R :=
  if Rlt_dec 0 x then 1 else if Rlt_dec x 0 then -1 else 0.

(** The [%] operator on numbers: the remainder has the sign of the
    dividend, the quotient being truncated. *)
Definition rem (a b : R) : R := a - b * IZR (truncate (a / b)).

(** The number of iterations of [for (let i = 0; i < bound; i++)]:
    the naturals strictly below [bound]. *)
Definition loop_count (bound : R) : nat := Z.to_nat (Zceil bound).

End JS.

(** ** Node's [Buffer]

    A buffer is the list of its bytes, each a [Z] in [0, 255].  The
    integer writers follow Node's [lib/internal/buffer.js]: the value is
    range-checked first ([checkInt], a [RangeError] outside the range of
    the field, modelled by [None]), then stored byte by byte through a
    [Uint8Array], whose element store keeps the low eight bits of the
    truncated value. *)

Module Buffer.

Definition t : Type := list Z.

(** [Buffer.alloc(size)]: zero-filled. *)
Definition alloc (size : nat) : t := repeat 0%Z size.

(** Overwrites [length bs] bytes from [offset] on. *)
Definition set_bytes (offset : nat) (bs : list Z) (buf : t) : t :=
  firstn offset buf ++ bs ++ skipn (offset + length bs) buf.

Definition in_bounds (offset width : nat) (buf : t) : bool :=
  (offset + width <=? length buf)%nat.

(** The element store of a [Uint8Array]. *)
Definition ToUint8 (v : Z) : Z := (v mod 256)%Z.

(** [ToUint32], the conversion [>>>] applies to its left operand. *)
Definition ToUint32 (v : Z) : Z := (v mod 4294967296)%Z.

Definition utf8 (s : string) : list Z :=
  map (fun c => Z.of_nat (nat_of_ascii c)) (list_ascii_of_string s).

(** [buf.write(string, offset)] for an ASCII string: as many bytes as
    fit are written; an offset past the end is a [RangeError]. *)
Definition write (s : string) (offset : nat) (buf : t) : option t :=
  if in_bounds offset 0 buf
  then Some (set_bytes offset (firstn (length buf - offset) (utf8 s)) buf)
  else None.

Definition uint16le (v : Z) : list Z :=
  [ToUint8 v; ToUint8 (Z.shiftr (ToUint32 v) 8)].

Definition uint32le (v : Z) : list Z :=
  let v1 := Z.shiftr (ToUint32 v) 8 in
  let v2 := Z.shiftr v1 8 in
  let v3 := Z.shiftr v2 8 in
  [ToUint8 v; ToUint8 v1; ToUint8 v2; ToUint8 v3].

(** [buf.writeUInt16LE(value, offset)]. *)
Definition writeUInt16LE (value : Z) (offset : nat) (buf : t) : option t :=
  if ((0 <=? value) && (value <=? 65535))%Z && in_bounds offset 2 buf
  then Some (set_bytes offset (uint16le value) buf)
  else None.

(** [buf.writeUInt32LE(value, offset)]. *)
Definition writeUInt32LE (value : Z) (offset : nat) (buf : t) : option t :=
  if ((0 <=? value) && (value <=? 4294967295))%Z && in_bounds offset 4 buf
  then Some (set_bytes offset (uint32le value) buf)
  else None.

(** [buf.writeInt16LE(value, offset)] on a number that need not be an
    integer: the range check is on the number itself, the stored bytes
    are those of its truncation. *)
Definition writeInt16LE (value : R) (offset : nat) (buf : t) : option t :=
  if Rlt_dec 32767 value then None
  else if Rlt_dec value (-32768) then None
  else if in_bounds offset 2 buf
  then Some (set_bytes offset (uint16le (JS.truncate value)) buf)
  else None.

(** [Buffer.concat(list)]. *)
Definition concat (bufs : list t) : t := List.concat bufs.

Definition byteAt (buf : t) (offset : nat) : Z := nth offset buf 0%Z.

(** [buf.readUInt16LE(offset)]. *)
Definition readUInt16LE (buf : t) (offset : nat) : Z :=
  (byteAt buf offset + byteAt buf (offset + 1) * 256)%Z.

(** [buf.readUInt32LE(offset)]. *)
Definition readUInt32LE (buf : t) (offset : nat) : Z :=
  (byteAt buf offset + byteAt buf (offset + 1) * 256
   + byteAt buf (offset + 2) * 65536
   + byteAt buf (offset + 3) * 16777216)%Z.

(** [buf.subarray(start, start + len)], compared with the bytes of an
    ASCII tag. *)
Definition slice (buf : t) (start len : nat) : t :=
  firstn len (skipn start buf).

End Buffer.

(** Sequencing of writes that may throw. *)
Notation "'do' x <- m ; k" :=
  (match m with Some x => k | None => None end)
  (at level 10, x name, m at level 100, k at level 200, only parsing).

(** A day of the contribution calendar, as GitHub's GraphQL API returns
    it. *)
Record ContributionDay : Type := mkDay {
  date : string;
  contributionCount : Z
}.

(** The answer to the GraphQL query for a user's contribution calendar,
    as far as the service looks into it, once the request has succeeded:
    the user may be [null], the calendar's [weeks] may be missing. *)
Inductive CalendarResponse : Type :=
| UserMissing
| WeeksMissing
| Weeks (weeks : list (list ContributionDay)).

(** Truthiness of an optional string argument: [undefined] and the
    empty string are falsy. *)
Definition truthy (s : option string) : bool :=
  match s with
  | None => false
  | Some EmptyString => false
  | Some _ => true
  end.

(** A template literal's rendering of an optional string. *)
Definition interpolate (s : option string) : string :=
  match s with
  | Some x => x
  | None => "undefined"
  end.

(** ** The refactored service (src/src/github/github.service.ts) *)

Module Service.

Definition minFreq : R := 261.63.
Definition maxFreq : R := 1046.5.

(** [getFrequencyFromContribution], lines 431-440. *)
Definition getFrequencyFromContribution (count : Z) : R :=
  if (count <=? 0)%Z then minFreq
  else
    let freq := IZR count / 100 * (maxFreq - minFreq) + minFreq in
    Rmin freq maxFreq.

(** [getWavHeader], lines 386-422. *)
Definition getWavHeader (samplesLength sampleRate : Z) : option Buffer.t :=
  let blockAlign := 2%Z in
  let byteRate := (sampleRate * blockAlign)%Z in
  let dataSize := (samplesLength * blockAlign)%Z in
  let buffer := Buffer.alloc 44 in
  do buffer <- Buffer.write "RIFF" 0 buffer;
  do buffer <- Buffer.writeUInt32LE (36 + dataSize) 4 buffer;
  do buffer <- Buffer.write "WAVE" 8 buffer;
  do buffer <- Buffer.write "fmt " 12 buffer;
  do buffer <- Buffer.writeUInt32LE 16 16 buffer;
  do buffer <- Buffer.writeUInt16LE 1 20 buffer;
  do buffer <- Buffer.writeUInt16LE 1 22 buffer;
  do buffer <- Buffer.writeUInt32LE sampleRate 24 buffer;
  do buffer <- Buffer.writeUInt32LE byteRate 28 buffer;
  do buffer <- Buffer.writeUInt16LE blockAlign 32 buffer;
  do buffer <- Buffer.writeUInt16LE 16 34 buffer;
  do buffer <- Buffer.write "data" 36 buffer;
  do buffer <- Buffer.writeUInt32LE dataSize 40 buffer;
  Some buffer.

(** [createSamplesFromContributions], lines 261-279.  The inner [for]
    pushes one sample per index below [sampleCount]; the [forEach]
    pushes the days' runs one after the other. *)
Definition createSamplesFromContributions
    (contributionDays : list ContributionDay) : list R :=
  let frequencies :=
    map (fun day => getFrequencyFromContribution (contributionCount day))
        contributionDays in
  let sampleRate := 44100 in
  let duration := 0.1 in
  flat_map
    (fun freq =>
       let sampleCount := sampleRate * duration in
       map (fun i : nat =>
              sin (2 * PI * freq * (INR i / sampleRate)) * 0.5)
           (seq 0 (JS.loop_count sampleCount)))
    frequencies.

(** The loop of [createWavData] (lines 292-296) from index [i] on,
    [samples] being the elements not yet written. *)
Fixpoint writeSamples (samples : list R) (i : nat) (buffer : Buffer.t)
    : option Buffer.t :=
  match samples with
  | [] => Some buffer
  | x :: rest =>
      let s := Rmax (-1) (Rmin 1 x) in
      do buffer <- Buffer.writeInt16LE (s * 32767) (i * 2) buffer;
      writeSamples rest (S i) buffer
  end.

(** [createWavData], lines 288-301. *)
Definition createWavData (samples : list R) : option Buffer.t :=
  let buffer := Buffer.alloc (length samples * 2) in
  do buffer <- writeSamples samples 0 buffer;
  do wavHeader <- getWavHeader (Z.of_nat (length samples)) 44100;
  Some (Buffer.concat [wavHeader; buffer]).

(** What a request handler leaves behind: the response, and the WAV
    file handed to the transcoder. *)
Inductive Outcome : Type :=
| Status404 (body : string)
| Mp3Response (wavPath mp3Path : string) (wavData : Buffer.t)
    (isStream : bool)
| Rejected.

(** The tail of [fetchContributionDays] (lines 216-225): optional
    chaining turns a missing user or calendar into [null]; a flattened
    array is always truthy. *)
Definition contributionDaysOfResponse (response : CalendarResponse)
    : option (list ContributionDay) :=
  match response with
  | Weeks weeks => Some (flat_map (fun week => week) weeks)
  | _ => None
  end.

(** What [generateMusicByYear] leaves behind: a 404, or the HTML page
    embedding the transcoded WAV file. *)
Inductive YearOutcome : Type :=
| YearStatus404 (body : string)
| YearPage (wavPath mp3Path : string) (wavData : Buffer.t)
| YearRejected.

Section Http.

(** [fetchContributionDays], lines 199-226: the GraphQL collaborator;
    [None] is its [null]. *)
Variable fetchContributionDays : string -> option (list ContributionDay).

(** [generateAndSendMusic], lines 21-45.  An array, even an empty
    one, is truthy, so only [null] takes the 404 branch. *)
Definition generateAndSendMusic (username : string) (isStream : bool)
    : Outcome :=
  match fetchContributionDays username with
  | None => Status404 "User's contribution data could not be found."
  | Some contributionDays =>
      let samples := createSamplesFromContributions contributionDays in
      match createWavData samples with
      | None => Rejected
      | Some wavData =>
          let wavPath := ("temp/" ++ username ++ ".wav")%string in
          let mp3Path := ("temp/" ++ username ++ ".mp3")%string in
          Mp3Response wavPath mp3Path wavData isStream
      end
  end.

(** [generateCustomMusic], lines 58-68: [undefined] arguments take
    the parameter defaults. *)
Definition generateCustomMusic (username : string) (instrumentId : Z)
    (tempo volume : option R) : Outcome :=
  let tempo := match tempo with Some x => x | None => 120 end in
  let volume := match volume with Some x => x | None => 0.5 end in
  generateAndSendMusic username false.

(** [generateMusicByYear], lines 78-162. *)
Definition generateMusicByYear (username : string) (year : option string)
    : YearOutcome :=
  match fetchContributionDays username with
  | None =>
      YearStatus404
        "User's contribution data could not be found or user is invalid."
  | Some allDays =>
      if (length allDays =? 0)%nat then
        YearStatus404
          "User's contribution data could not be found or user is invalid."
      else
        let filteredDays :=
          if truthy year
          then filter (fun day => String.prefix (interpolate year) (date day))
                      allDays
          else allDays in
        if negb (0 <? length filteredDays)%nat then
          YearStatus404
            ("No contribution data found for the selected year: "
             ++ interpolate year)
        else
          let samples := createSamplesFromContributions filteredDays in
          match createWavData samples with
          | None => YearRejected
          | Some wavData =>
              let wavPath :=
                ("temp/" ++ username ++ "_" ++ interpolate year ++ ".wav")
                  %string in
              let mp3Path :=
                ("temp/" ++ username ++ "_" ++ interpolate year ++ ".mp3")
                  %string in
              YearPage wavPath mp3Path wavData
          end
  end.

End Http.

End Service.

(** ** The random source

    [Math.random] is the only effect of the rendering core.  A
    computation that may draw from it is a function of the number of draws
    made so far, returning its value and the new number of draws; the
    oracle [random k] is the outcome of draw number [k]. *)

Definition Rand (A : Type) : Type := nat -> A * nat.

Definition ret {A : Type} (a : A) : Rand A := fun k => (a, k).

Definition bind {A B : Type} (m : Rand A) (f : A -> Rand B) : Rand B :=
  fun k => let (a, k') := m k in f a k'.

Notation "x <- m ;; k" := (bind m (fun x => k))
  (at level 61, m at next level, right associativity).

(** [xs.map(f)] / a [for] loop collecting one value per element. *)
Fixpoint mapM {A B : Type} (f : A -> Rand B) (l : list A) : Rand (list B) :=
  match l with
  | [] => ret []
  | x :: xs => y <- f x ;; ys <- mapM f xs ;; ret (y :: ys)
  end.

(** [xs.forEach(x => { acc = f(acc, x) })]. *)
Fixpoint foldM {A B : Type} (f : B -> A -> Rand B) (acc : B) (l : list A)
    : Rand B :=
  match l with
  | [] => ret acc
  | x :: xs => acc' <- f acc x ;; foldM f acc' xs
  end.

(** ** The rendering revision (src/unnamed/part_001) *)

Module Part001.

Definition minFreq : R := 261.63.
Definition maxFreq : R := 1046.5.

(** [getFrequencyFromContribution], part_001 lines 580-590. *)
Definition getFrequencyFromContribution (count : Z) : R :=
  let freq :=
    if (0 <? count)%Z
    then IZR count / 100 * (maxFreq - minFreq) + minFreq
    else minFreq in
  Rmin freq maxFreq.

(** [getNoteDurationFromContribution], lines 545-557. *)
Definition getNoteDurationFromContribution (count : Z) (tempo : R) : R :=
  let beatDuration := 60 / tempo in
  if (50 <=? count)%Z then beatDuration * 4
  else if (25 <=? count)%Z then beatDuration * 2
  else if (10 <=? count)%Z then beatDuration
  else if (5 <=? count)%Z then beatDuration / 2
  else beatDuration / 4.

(** [getChordFromContribution], lines 560-577. *)
Definition getChordFromContribution (count : Z) (baseFreq : R)
    : option (list R) :=
  if (50 <=? count)%Z then
    Some [baseFreq; baseFreq * (5 / 4); baseFreq * (3 / 2)]
  else if (25 <=? count)%Z then
    Some [baseFreq; baseFreq * (6 / 5); baseFreq * (3 / 2)]
  else if (10 <=? count)%Z then
    Some [baseFreq; baseFreq * (3 / 2)]
  else None.

(** [getWavHeader], lines 593-614. *)
Definition getWavHeader (samplesLength sampleRate : Z) : option Buffer.t :=
  let blockAlign := 2%Z in
  let byteRate := (sampleRate * blockAlign)%Z in
  let dataSize := (samplesLength * blockAlign)%Z in
  let buffer := Buffer.alloc 44 in
  do buffer <- Buffer.write "RIFF" 0 buffer;
  do buffer <- Buffer.writeUInt32LE (36 + dataSize) 4 buffer;
  do buffer <- Buffer.write "WAVE" 8 buffer;
  do buffer <- Buffer.write "fmt " 12 buffer;
  do buffer <- Buffer.writeUInt32LE 16 16 buffer;
  do buffer <- Buffer.writeUInt16LE 1 20 buffer;
  do buffer <- Buffer.writeUInt16LE 1 22 buffer;
  do buffer <- Buffer.writeUInt32LE sampleRate 24 buffer;
  do buffer <- Buffer.writeUInt32LE byteRate 28 buffer;
  do buffer <- Buffer.writeUInt16LE blockAlign 32 buffer;
  do buffer <- Buffer.writeUInt16LE 16 34 buffer;
  do buffer <- Buffer.write "data" 36 buffer;
  do buffer <- Buffer.writeUInt32LE dataSize 40 buffer;
  Some buffer.

(** One element of [frequenciesAndDurations]. *)
Record Note : Type := mkNote {
  freq : R;
  noteDuration : R;
  chord : option (list R)
}.

(** [const sampleRate = 44100], used as a number in the sample loop
    and as an integer field of the header. *)
Definition sampleRate : Z := 44100.

Section Rendering.

(** [random k] is what call number [k] of [Math.random()] returns. *)
Variable random : nat -> R.

Definition Math_random : Rand R := fun k => (random k, S k).

(** [getInstrumentWaveform], lines 500-542. *)
Definition getInstrumentWaveform (instrumentId : Z) : R -> R -> Rand R :=
  match instrumentId with
  | 1%Z => fun freq t => ret (sin (2 * PI * freq * t))
  | 2%Z => fun freq t =>
      ret ((sin (2 * PI * freq * t)
            + 0.5 * sin (2 * PI * freq * 2 * t)) / 1.5)
  | 3%Z => fun freq t =>
      let period := 1 / freq in
      ret (2 / PI * asin (sin (2 * PI * freq * t)))
  | 4%Z => fun freq t =>
      let period := 1 / freq in
      ret (2 * JS.rem t period / period - 1)
  | 5%Z => fun freq t => ret (JS.Math_sign (sin (2 * PI * freq * t)))
  | 6%Z => fun freq t =>
      u <- Math_random ;; ret ((u * 2 - 1) * exp ((- t) * 5))
  | 7%Z => fun freq t =>
      ret (sin (2 * PI * freq * t) * sin (2 * PI * freq * t * 0.5))
  | 8%Z => fun freq t =>
      ret (sin (2 * PI * freq * t + 5 * sin (2 * PI * 5 * t)))
  | _ => fun freq t => ret (sin (2 * PI * freq * t))
  end.

(** The [map] of lines 409-416. *)
Definition frequenciesAndDurations (tempo : R)
    (contributionDays : list ContributionDay) : list Note :=
  map (fun day =>
         let count := contributionCount day in
         let freq := getFrequencyFromContribution count in
         let noteDuration := getNoteDurationFromContribution count tempo in
         let chord := getChordFromContribution count freq in
         mkNote freq noteDuration chord)
      contributionDays.

(** The body of the inner [for] (lines 429-442) at index [i]: the
    sample it pushes. *)
Definition noteSample (instrumentWaveform : R -> R -> Rand R)
    (volume freq : R) (chord : option (list R)) (i : nat) : Rand R :=
  let t := INR i / IZR sampleRate in
  sample <-
    match chord with
    | Some chord =>
        sample <-
          foldM (fun sample chordFreq =>
                   w <- instrumentWaveform chordFreq t ;;
                   ret (sample + w))
                0 chord ;;
        ret (sample / INR (length chord))
    | None => instrumentWaveform freq t
    end ;;
  ret (sample * volume).

(** The body of the [forEach] (lines 422-444) for one note: the run
    of samples it pushes. *)
Definition noteSamples (instrumentId : Z) (volume : R) (note : Note)
    : Rand (list R) :=
  let sampleCount := JS.Math_floor (IZR sampleRate * noteDuration note) in
  let instrumentWaveform := getInstrumentWaveform instrumentId in
  mapM (noteSample instrumentWaveform volume (freq note) (chord note))
       (seq 0 (JS.loop_count (IZR sampleCount))).

(** [samples] after the [forEach] of lines 422-444. *)
Definition renderSamples (instrumentId : Z) (volume : R)
    (notes : list Note) : Rand (list R) :=
  runs <- mapM (noteSamples instrumentId volume) notes ;;
  ret (concat runs).

(** The loop of lines 448-451 from index [i] on. *)
Fixpoint writeSamples (samples : list R) (i : nat) (buffer : Buffer.t)
    : option Buffer.t :=
  match samples with
  | [] => Some buffer
  | x :: rest =>
      let s := Rmax (-1) (Rmin 1 x) in
      do buffer <- Buffer.writeInt16LE (s * 32767) (i * 2) buffer;
      writeSamples rest (S i) buffer
  end.

(** Lines 447-455: [wavData] from [samples]. *)
Definition encodeWav (samples : list R) : option Buffer.t :=
  let buffer := Buffer.alloc (length samples * 2) in
  do buffer <- writeSamples samples 0 buffer;
  do wavHeader <-
    getWavHeader (Z.of_nat (length samples)) sampleRate;
  Some (Buffer.concat [wavHeader; buffer]).

(** [tempo = tempo || 120] (line 359): a falsy tempo, [undefined]
    or [0], becomes 120. *)
Definition tempoOrDefault (tempo : option R) : R :=
  match tempo with
  | Some x => if Req_dec_T x 0 then 120 else x
  | None => 120
  end.

(** [volume = volume !== undefined ? volume : 0.5] (line 360). *)
Definition volumeOrDefault (volume : option R) : R :=
  match volume with Some x => x | None => 0.5 end.

(** The [samples] array of [generateCustomMusic] (lines 358-360 and
    408-444) for the fetched [contributionDays]. *)
Definition customSamples (instrumentId : Z) (tempo volume : option R)
    (contributionDays : list ContributionDay) : Rand (list R) :=
  let tempo := tempoOrDefault tempo in
  let volume := volumeOrDefault volume in
  renderSamples instrumentId volume
    (frequenciesAndDurations tempo contributionDays).

(** The [wavData] buffer of [generateCustomMusic] (lines 446-455). *)
Definition customWavData (instrumentId : Z) (tempo volume : option R)
    (contributionDays : list ContributionDay) : Rand (option Buffer.t) :=
  samples <- customSamples instrumentId tempo volume contributionDays ;;
  ret (encodeWav samples).

End Rendering.

(** What a handler of this revision leaves behind; every exception is
    caught and answered with a 500. *)
Inductive Outcome : Type :=
| Status404 (body : string)
| Status500 (body : string)
| Mp3Response (wavPath mp3Path : string) (wavData : Buffer.t)
    (isStream : bool).

(** The [samples] array of [generateAndSendMusic] (lines 69-87). *)
Definition simpleSamples (contributionDays : list ContributionDay)
    : list R :=
  let frequencies :=
    map (fun day =>
           let count := contributionCount day in
           getFrequencyFromContribution count)
        contributionDays in
  let duration := 0.1 in
  flat_map
    (fun freq =>
       let sampleCount := IZR sampleRate * duration in
       map (fun i : nat =>
              sin (2 * PI * freq * (INR i / IZR sampleRate)) * 0.5)
           (seq 0 (JS.loop_count sampleCount)))
    frequencies.

(** [generateAndSendMusic], lines 13-144, from the response on; lines
    89-98 are the statements of lines 446-455 ([encodeWav]).  Reading
    [weeks] off a missing user throws inside the [try]. *)
Definition generateAndSendMusic (response : CalendarResponse)
    (username : string) (isStream : bool) : Outcome :=
  match response with
  | UserMissing => Status500 "Müzik oluşturulurken hata oluştu"
  | WeeksMissing => Status404 "Kullanıcının katkı verileri bulunamadı."
  | Weeks weeks =>
      if (length weeks =? 0)%nat then
        Status404 "Kullanıcının katkı verileri bulunamadı."
      else
        let contributionDays := flat_map (fun week => week) weeks in
        let samples := simpleSamples contributionDays in
        match encodeWav samples with
        | None => Status500 "Müzik oluşturulurken hata oluştu"
        | Some wavData =>
            let wavPath := ("temp/" ++ username ++ ".wav")%string in
            let mp3Path := ("temp/" ++ username ++ ".mp3")%string in
            Mp3Response wavPath mp3Path wavData isStream
        end
  end.

(** The loop of [getUserYears] (lines 337-340) between the year the
    account was created and the current year. *)
Definition yearsBetween (startYear currentYear : Z) : list Z :=
  map (fun i : nat => (startYear + Z.of_nat i)%Z)
      (seq 0 (Z.to_nat (currentYear - startYear + 1))).

End Part001.

(** ** The specification's wording

    Definitions that follow the specification's text, to be compared
    with the code's. *)

Module Spec.

(** Little-endian fields (section 4.7: all multi-byte integers
    little-endian). *)
Definition le16 (v : Z) : list Z :=
  [(v mod 256)%Z; (v / 256 mod 256)%Z].

Definition le32 (v : Z) : list Z :=
  [(v mod 256)%Z; (v / 256 mod 256)%Z;
   (v / 65536 mod 256)%Z; (v / 16777216 mod 256)%Z].

(** The 44-byte header of section 4.7 for [sampleCount] samples at
    44100 Hz. *)
Definition wavHeader (sampleCount : Z) : list Z :=
  Buffer.utf8 "RIFF" ++ le32 (36 + 2 * sampleCount)
  ++ Buffer.utf8 "WAVE" ++ Buffer.utf8 "fmt "
  ++ le32 16 ++ le16 1 ++ le16 1
  ++ le32 44100 ++ le32 (44100 * 2)
  ++ le16 2 ++ le16 16
  ++ Buffer.utf8 "data" ++ le32 (2 * sampleCount).

(** Section 4.6: clamp to [-1,1], multiply by 32767, truncate. *)
Definition clamp (x : R) : R := Rmax (-1) (Rmin 1 x).

Definition quantize (x : R) : Z := JS.truncate (clamp x * 32767).

(** The quantized samples as little-endian signed 16-bit integers
    (two's complement). *)
Definition pcmData (samples : list R) : list Z :=
  flat_map (fun x => le16 (quantize x)) samples.

(** The signed 16-bit values a decoder reads back from PCM data. *)
Fixpoint decodeInt16LE (data : list Z) : list Z :=
  match data with
  | lo :: hi :: rest =>
      let u := (lo + hi * 256)%Z in
      (if (u <? 32768)%Z then u else (u - 65536)%Z) :: decodeInt16LE rest
  | _ => []
  end.

(** Arithmetic mean (section 4.4, chords). *)
Definition mean (values : list R) : R :=
  fold_right Rplus 0 values / INR (length values).

(** [t mod p] for the sawtooth of section 4.4: the remainder of [t]
    after whole periods [p]. *)
Definition fmod (t p : R) : R := t - p * IZR (Zfloor (t / p)).

(** The header of section 4.7 at an arbitrary sample rate. *)
Definition wavHeaderAt (sampleRateHz sampleCount : Z) : list Z :=
  Buffer.utf8 "RIFF" ++ le32 (36 + 2 * sampleCount)
  ++ Buffer.utf8 "WAVE" ++ Buffer.utf8 "fmt "
  ++ le32 16 ++ le16 1 ++ le16 1
  ++ le32 sampleRateHz ++ le32 (sampleRateHz * 2)
  ++ le16 2 ++ le16 16
  ++ Buffer.utf8 "data" ++ le32 (2 * sampleCount).

End Spec.

(** The waveform value when no draw is made: the reading of
    [getInstrumentWaveform] under the constant-zero oracle. *)
Definition drawFreeWaveform (instrumentId : Z) (freq t : R) : R :=
  fst (Part001.getInstrumentWaveform (fun _ => 0) instrumentId freq t 0%nat).

(** The sample the loop body pushes at index [i] when the waveform is the
    function [waveform] of pitch and time alone. *)
Definition drawFreeSample (waveform : R -> R -> R) (volume freq : R)
    (chord : option (list R)) (i : nat) : R :=
  let t := INR i / 44100 in
  match chord with
  | Some pitches =>
      (0 + fold_right Rplus 0 (map (fun pitch => waveform pitch t) pitches))
      / INR (length pitches)
  | None => waveform freq t
  end * volume.

(** * Theorems *)

Lemma IZR_pos_lt (z : Z) : (0 < z)%Z -> 0 < IZR z.
Proof. intro H. apply (IZR_lt 0 z H). Qed.

Lemma freq_revisions_agree (count : Z) :
  Part001.getFrequencyFromContribution count
  = Service.getFrequencyFromContribution count.
Proof.
  unfold Part001.getFrequencyFromContribution,
    Service.getFrequencyFromContribution,
    Part001.minFreq, Part001.maxFreq, Service.minFreq, Service.maxFreq.
  destruct (Z.leb_spec count 0) as [Hle | Hgt];
    destruct (Z.ltb_spec 0 count) as [Hlt | Hge]; try lia.
  - apply Rmin_left. lra.
  - reflexivity.
Qed.

Lemma freq_linear_monotone (a b : Z) :
  (a <= b)%Z ->
  IZR a / 100 * (1046.5 - 261.63) + 261.63
  <= IZR b / 100 * (1046.5 - 261.63) + 261.63.
Proof. intro H. apply IZR_le in H. lra. Qed.

Lemma freq_monotone (a b : Z) :
  (a <= b)%Z ->
  Service.getFrequencyFromContribution a
  <= Service.getFrequencyFromContribution b.
Proof.
  intro Hab.
  unfold Service.getFrequencyFromContribution, Service.minFreq, Service.maxFreq.
  destruct (Z.leb_spec a 0) as [Ha | Ha];
    destruct (Z.leb_spec b 0) as [Hb | Hb]; try lia.
  - lra.
  - apply Rmin_glb; [| lra].
    apply IZR_pos_lt in Hb. lra.
  - apply Rle_min_compat_r. now apply freq_linear_monotone.
Qed.

Lemma freq_nonpos (count : Z) :
  (count <= 0)%Z -> Service.getFrequencyFromContribution count = 261.63.
Proof.
  intro H. unfold Service.getFrequencyFromContribution.
  destruct (Z.leb_spec count 0); [reflexivity | lia].
Qed.

Lemma freq_pos (count : Z) :
  (0 < count)%Z ->
  Service.getFrequencyFromContribution count
  = Rmin (IZR count / 100 * (1046.5 - 261.63) + 261.63) 1046.5.
Proof.
  intro H. unfold Service.getFrequencyFromContribution.
  destruct (Z.leb_spec count 0); [lia | reflexivity].
Qed.

Lemma freq_range (count : Z) :
  261.63 <= Service.getFrequencyFromContribution count <= 1046.5.
Proof.
  destruct (Z.leb_spec count 0) as [Hle | Hgt].
  - rewrite freq_nonpos by assumption. lra.
  - rewrite freq_pos by assumption.
    pose proof (IZR_pos_lt _ Hgt).
    split; [apply Rmin_glb; lra | apply Rmin_r].
Qed.

(** ** FrequencyMapper *)

(** C1: for every integer activityCount both revisions of
    [getFrequencyFromContribution] return the same frequency; it is exactly
    261.63 when activityCount <= 0 and otherwise
    min((activityCount/100) * (1046.5 - 261.63) + 261.63, 1046.5); hence it
    lies in [261.63, 1046.5], equals 1046.5 for every activityCount >= 100,
    and is non-decreasing in activityCount over [0, 100]. *)
Theorem frequency_mapper_policy (activityCount : Z) :
  Part001.getFrequencyFromContribution activityCount
  = Service.getFrequencyFromContribution activityCount
  /\ ((activityCount <= 0)%Z ->
      Service.getFrequencyFromContribution activityCount = 261.63)
  /\ ((0 < activityCount)%Z ->
      Service.getFrequencyFromContribution activityCount
      = Rmin (IZR activityCount / 100 * (1046.5 - 261.63) + 261.63) 1046.5)
  /\ 261.63 <= Service.getFrequencyFromContribution activityCount <= 1046.5
  /\ ((100 <= activityCount)%Z ->
      Service.getFrequencyFromContribution activityCount = 1046.5)
  /\ (forall later : Z,
        (0 <= activityCount <= later)%Z -> (later <= 100)%Z ->
        Service.getFrequencyFromContribution activityCount
        <= Service.getFrequencyFromContribution later).
Proof.
  split; [apply freq_revisions_agree |].
  split; [apply freq_nonpos |].
  split; [apply freq_pos |].
  split; [apply freq_range |].
  split.
  - intro H100. rewrite freq_pos by lia.
    apply Rmin_right.
    assert (100 <= IZR activityCount) by (apply (IZR_le 100); lia).
    lra.
  - intros later Hle _. apply freq_monotone. lia.
Qed.

Lemma frequency_mapper_policy_witness :
  Service.getFrequencyFromContribution (-3) = 261.63
  /\ Service.getFrequencyFromContribution 40
     = Rmin (IZR 40 / 100 * (1046.5 - 261.63) + 261.63) 1046.5
  /\ Service.getFrequencyFromContribution 150 = 1046.5
  /\ Service.getFrequencyFromContribution 40
     <= Service.getFrequencyFromContribution 70.
Proof.
  destruct (frequency_mapper_policy (-3)) as (_ & Hmin & _).
  destruct (frequency_mapper_policy 40) as (_ & _ & Hlin & _ & _ & Hmono).
  destruct (frequency_mapper_policy 150) as (_ & _ & _ & _ & Hmax & _).
  split; [| split; [| split]].
  - apply Hmin. lia.
  - apply Hlin. lia.
  - apply Hmax. lia.
  - apply Hmono; lia.
Defined.

(** ** RhythmMapper *)

(** C5: for every activityCount >= 0 and tempoBPM > 0, with
    beatDuration = 60/tempoBPM, [getNoteDurationFromContribution] returns
    4, 2, 1, 0.5 or 0.25 beats in the bands count >= 50, 25 <= count < 50,
    10 <= count < 25, 5 <= count < 10 and count < 5; the durations at
    counts 60, 30, 15, 7 and 1 are strictly decreasing. *)
Theorem rhythm_mapper_bands (activityCount : Z) (tempoBPM : R) :
  (0 <= activityCount)%Z -> 0 < tempoBPM ->
  ((50 <= activityCount)%Z ->
     Part001.getNoteDurationFromContribution activityCount tempoBPM
     = 4 * (60 / tempoBPM))
  /\ ((25 <= activityCount < 50)%Z ->
     Part001.getNoteDurationFromContribution activityCount tempoBPM
     = 2 * (60 / tempoBPM))
  /\ ((10 <= activityCount < 25)%Z ->
     Part001.getNoteDurationFromContribution activityCount tempoBPM
     = 1 * (60 / tempoBPM))
  /\ ((5 <= activityCount < 10)%Z ->
     Part001.getNoteDurationFromContribution activityCount tempoBPM
     = 0.5 * (60 / tempoBPM))
  /\ ((activityCount < 5)%Z ->
     Part001.getNoteDurationFromContribution activityCount tempoBPM
     = 0.25 * (60 / tempoBPM))
  /\ Part001.getNoteDurationFromContribution 60 tempoBPM
     > Part001.getNoteDurationFromContribution 30 tempoBPM
  /\ Part001.getNoteDurationFromContribution 30 tempoBPM
     > Part001.getNoteDurationFromContribution 15 tempoBPM
  /\ Part001.getNoteDurationFromContribution 15 tempoBPM
     > Part001.getNoteDurationFromContribution 7 tempoBPM
  /\ Part001.getNoteDurationFromContribution 7 tempoBPM
     > Part001.getNoteDurationFromContribution 1 tempoBPM.
Proof.
  intros _ Htempo.
  assert (Hbeat : 0 < 60 / tempoBPM)
    by (apply Rdiv_lt_0_compat; lra).
  unfold Part001.getNoteDurationFromContribution.
  repeat split; intros; cbn [Z.leb Z.compare Pos.compare Pos.compare_cont];
    repeat match goal with
      | |- context [(?a <=? ?b)%Z] => destruct (Z.leb_spec a b); try lia
      end;
    lra.
Qed.

Lemma rhythm_mapper_bands_witness :
  Part001.getNoteDurationFromContribution 60 120 = 4 * (60 / 120)
  /\ Part001.getNoteDurationFromContribution 7 120 = 0.5 * (60 / 120)
  /\ Part001.getNoteDurationFromContribution 7 120
     > Part001.getNoteDurationFromContribution 1 120.
Proof.
  assert (H60 : (0 <= 60)%Z) by lia.
  assert (H7 : (0 <= 7)%Z) by lia.
  assert (Ht : 0 < 120) by lra.
  destruct (rhythm_mapper_bands 60 120 H60 Ht) as (Hwhole & _).
  destruct (rhythm_mapper_bands 7 120 H7 Ht)
    as (_ & _ & _ & Heighth & _ & _ & _ & _ & Horder).
  split; [| split].
  - apply Hwhole. lia.
  - apply Heighth. lia.
  - exact Horder.
Defined.

(** ** HarmonyMapper *)

(** C6: for every basePitch and activityCount,
    [getChordFromContribution] returns [base, base*5/4, base*3/2] when
    count >= 50, [base, base*6/5, base*3/2] when 25 <= count < 50,
    [base, base*3/2] when 10 <= count < 25 and no chord when count < 10;
    at count 60 and base 440 it is exactly 440, 550, 660, and at count 3
    there is no chord. *)
Theorem harmony_mapper_chords (basePitch : R) (activityCount : Z) :
  ((50 <= activityCount)%Z ->
     Part001.getChordFromContribution activityCount basePitch
     = Some [basePitch; basePitch * 5 / 4; basePitch * 3 / 2])
  /\ ((25 <= activityCount < 50)%Z ->
     Part001.getChordFromContribution activityCount basePitch
     = Some [basePitch; basePitch * 6 / 5; basePitch * 3 / 2])
  /\ ((10 <= activityCount < 25)%Z ->
     Part001.getChordFromContribution activityCount basePitch
     = Some [basePitch; basePitch * 3 / 2])
  /\ ((activityCount < 10)%Z ->
     Part001.getChordFromContribution activityCount basePitch = None)
  /\ Part001.getChordFromContribution 60 440 = Some [440; 550; 660]
  /\ Part001.getChordFromContribution 3 440 = None.
Proof.
  unfold Part001.getChordFromContribution.
  repeat split; intros; cbn [Z.leb Z.compare Pos.compare Pos.compare_cont];
    repeat match goal with
      | |- context [(?a <=? ?b)%Z] => destruct (Z.leb_spec a b); try lia
      end;
    try reflexivity;
    repeat (f_equal; try lra).
Qed.

Lemma harmony_mapper_chords_witness :
  Part001.getChordFromContribution 30 440
  = Some [440; 440 * 6 / 5; 440 * 3 / 2]
  /\ Part001.getChordFromContribution 12 440 = Some [440; 440 * 3 / 2]
  /\ Part001.getChordFromContribution 9 440 = None.
Proof.
  destruct (harmony_mapper_chords 440 30) as (_ & Hminor & _).
  destruct (harmony_mapper_chords 440 12) as (_ & _ & Hpower & _).
  destruct (harmony_mapper_chords 440 9) as (_ & _ & _ & Hnone & _).
  split; [| split].
  - apply Hminor. lia.
  - apply Hpower. lia.
  - apply Hnone. lia.
Defined.

(** ** Byte-level facts about [Buffer] *)

Lemma uint16le_le16 (v : Z) : Buffer.uint16le v = Spec.le16 v.
Proof.
  unfold Buffer.uint16le, Spec.le16, Buffer.ToUint8, Buffer.ToUint32.
  rewrite Z.shiftr_div_pow2 by lia.
  change (2 ^ 8)%Z with 256%Z.
  f_equal. f_equal.
  Z.div_mod_to_equations. lia.
Qed.

Lemma uint32le_le32 (v : Z) : Buffer.uint32le v = Spec.le32 v.
Proof.
  unfold Buffer.uint32le, Spec.le32, Buffer.ToUint8, Buffer.ToUint32.
  rewrite !Z.shiftr_div_pow2 by lia.
  change (2 ^ 8)%Z with 256%Z.
  repeat (f_equal; try (Z.div_mod_to_equations; lia)).
Qed.

Lemma le32_value (v : Z) :
  (0 <= v <= 4294967295)%Z ->
  (v mod 256 + v / 256 mod 256 * 256 + v / 65536 mod 256 * 65536
   + v / 16777216 mod 256 * 16777216 = v)%Z.
Proof. intro H. Z.div_mod_to_equations. lia. Qed.

Lemma le16_signed_value (v : Z) :
  (-32768 <= v <= 32767)%Z ->
  Spec.decodeInt16LE (Spec.le16 v) = [v].
Proof.
  intro H. unfold Spec.le16, Spec.decodeInt16LE.
  f_equal.
  destruct (Z.ltb_spec (v mod 256 + v / 256 mod 256 * 256) 32768);
    Z.div_mod_to_equations; lia.
Qed.

Lemma range32 (v : Z) :
  (0 <= v <= 4294967295)%Z ->
  ((0 <=? v) && (v <=? 4294967295))%Z = true.
Proof. intro H. apply andb_true_intro. split; apply Z.leb_le; lia. Qed.

Ltac mentions x c := match x with context [c] => idtac end.

Lemma getWavHeader_revisions_agree (samplesLength sampleRate : Z) :
  Part001.getWavHeader samplesLength sampleRate
  = Service.getWavHeader samplesLength sampleRate.
Proof. reflexivity. Qed.

Lemma getWavHeader_bytes (n : Z) :
  (0 <= n)%Z -> (36 + 2 * n <= 4294967295)%Z ->
  Service.getWavHeader n 44100 = Some (Spec.wavHeader n).
Proof.
  intros Hn Hmax.
  unfold Service.getWavHeader, Spec.wavHeader, Buffer.writeUInt32LE,
    Buffer.writeUInt16LE, Buffer.write.
  rewrite <- !uint32le_le32, <- !uint16le_le16.
  replace (n * 2)%Z with (2 * n)%Z by lia.
  rewrite !range32 by lia.
  unfold Buffer.uint32le, Buffer.uint16le.
  generalize (36 + 2 * n)%Z (2 * n)%Z. intros c d.
  repeat match goal with
    | |- context [Buffer.ToUint8 ?x] =>
        first [ mentions x c | mentions x d ];
        let b := fresh "b" in set (b := Buffer.ToUint8 x); clearbody b
    end.
  reflexivity.
Qed.

Lemma wavHeader_fields (n : Z) :
  (0 <= n)%Z -> (36 + 2 * n <= 4294967295)%Z ->
  length (Spec.wavHeader n) = 44%nat
  /\ Buffer.slice (Spec.wavHeader n) 0 4 = Buffer.utf8 "RIFF"
  /\ Buffer.readUInt32LE (Spec.wavHeader n) 4 = (36 + 2 * n)%Z
  /\ Buffer.slice (Spec.wavHeader n) 8 4 = Buffer.utf8 "WAVE"
  /\ Buffer.slice (Spec.wavHeader n) 12 4 = Buffer.utf8 "fmt "
  /\ Buffer.readUInt32LE (Spec.wavHeader n) 16 = 16%Z
  /\ Buffer.readUInt16LE (Spec.wavHeader n) 20 = 1%Z
  /\ Buffer.readUInt16LE (Spec.wavHeader n) 22 = 1%Z
  /\ Buffer.readUInt32LE (Spec.wavHeader n) 24 = 44100%Z
  /\ Buffer.readUInt32LE (Spec.wavHeader n) 28 = 88200%Z
  /\ Buffer.readUInt16LE (Spec.wavHeader n) 32 = 2%Z
  /\ Buffer.readUInt16LE (Spec.wavHeader n) 34 = 16%Z
  /\ Buffer.slice (Spec.wavHeader n) 36 4 = Buffer.utf8 "data"
  /\ Buffer.readUInt32LE (Spec.wavHeader n) 40 = (2 * n)%Z.
Proof.
  intros Hn Hmax.
  assert (Hc := le32_value (36 + 2 * n) ltac:(lia)).
  assert (Hd := le32_value (2 * n) ltac:(lia)).
  unfold Spec.wavHeader.
  remember (36 + 2 * n)%Z as c eqn:Ec.
  remember (2 * n)%Z as d eqn:Ed.
  clear Ec Ed Hn Hmax.
  unfold Spec.le32, Spec.le16.
  repeat match goal with
    | |- context [(?x mod 256)%Z] =>
        first [ mentions x c | mentions x d ];
        let b := fresh "b" in
        set (b := (x mod 256)%Z) in *; clearbody b
    end.
  repeat (split; [reflexivity |]).
  split; [exact Hc |].
  repeat (split; [reflexivity |]).
  exact Hd.
Qed.

(** ** PcmQuantizer *)

Lemma clamp_range (x : R) : -1 <= Spec.clamp x <= 1.
Proof.
  unfold Spec.clamp. split.
  - apply Rmax_l.
  - apply Rmax_lub; [lra | apply Rmin_l].
Qed.

Lemma truncate_range (y : R) (m : Z) :
  (0 <= m)%Z -> - IZR m <= y <= IZR m ->
  (- m <= JS.truncate y <= m)%Z.
Proof.
  intros Hm [Hlo Hhi]. unfold JS.truncate.
  destruct (Rle_dec 0 y) as [Hpos | Hneg].
  - pose proof (Zfloor_bound y) as [Hfl _].
    pose proof (Zfloor_lub 0 y Hpos).
    assert (IZR (Zfloor y) <= IZR m) by lra.
    apply le_IZR in H0. lia.
  - pose proof (Zceil_bound y) as [Hc1 Hc2].
    assert (IZR (- m) <= IZR (Zceil y)) by (rewrite opp_IZR; lra).
    assert (IZR (Zceil y) < IZR 1) by lra.
    apply le_IZR in H. apply lt_IZR in H0. lia.
Qed.

Lemma quantize_range (x : R) : (-32767 <= Spec.quantize x <= 32767)%Z.
Proof.
  unfold Spec.quantize.
  pose proof (clamp_range x).
  apply (truncate_range _ 32767); [lia | lra].
Qed.

Lemma truncate_IZR (z : Z) : JS.truncate (IZR z) = z.
Proof.
  unfold JS.truncate. destruct (Rle_dec 0 (IZR z)).
  - apply ZfloorZ.
  - unfold Zceil. rewrite <- opp_IZR, ZfloorZ. lia.
Qed.

Lemma quantize_above (x : R) : 1 <= x -> Spec.quantize x = 32767%Z.
Proof.
  intro H. unfold Spec.quantize, Spec.clamp.
  rewrite Rmin_left by assumption. rewrite Rmax_right by lra.
  replace (1 * 32767) with (IZR 32767) by lra. apply truncate_IZR.
Qed.

Lemma quantize_below (x : R) : x <= -1 -> Spec.quantize x = (-32767)%Z.
Proof.
  intro H. unfold Spec.quantize, Spec.clamp.
  rewrite Rmin_right by lra. rewrite Rmax_left by assumption.
  replace (-1 * 32767) with (IZR (-32767)) by lra. apply truncate_IZR.
Qed.

Lemma writeInt16LE_clamped (x : R) (pre zeros : Buffer.t) (i : nat) :
  length pre = (i * 2)%nat ->
  Buffer.writeInt16LE (Rmax (-1) (Rmin 1 x) * 32767) (i * 2)
    (pre ++ 0%Z :: 0%Z :: zeros)
  = Some ((pre ++ Spec.le16 (Spec.quantize x)) ++ zeros).
Proof.
  intro Hlen. unfold Buffer.writeInt16LE.
  pose proof (clamp_range x) as Hc. unfold Spec.clamp in Hc.
  destruct (Rlt_dec 32767 _) as [Hbad | _]; [lra |].
  destruct (Rlt_dec _ (-32768)) as [Hbad | _]; [lra |].
  assert (Hin : Buffer.in_bounds (i * 2) 2 (pre ++ 0%Z :: 0%Z :: zeros) = true).
  { unfold Buffer.in_bounds. apply Nat.leb_le.
    rewrite length_app. cbn [length]. lia. }
  rewrite Hin, uint16le_le16. f_equal.
  unfold Buffer.set_bytes, Spec.le16. cbn [length].
  rewrite <- Hlen, firstn_app, firstn_all, Nat.sub_diag, app_nil_r.
  cbn [firstn].
  rewrite skipn_app, skipn_all2 by lia.
  replace (length pre + 2 - length pre)%nat with 2%nat by lia.
  cbn [skipn app]. rewrite <- app_assoc. reflexivity.
Qed.

Lemma writeSamples_bytes (samples : list R) :
  forall (i : nat) (pre : Buffer.t),
    length pre = (i * 2)%nat ->
    Service.writeSamples samples i
      (pre ++ Buffer.alloc (length samples * 2))
    = Some (pre ++ Spec.pcmData samples).
Proof.
  induction samples as [| x rest IH]; intros i pre Hlen.
  - reflexivity.
  - cbn [Service.writeSamples length Nat.mul Nat.add Buffer.alloc repeat].
    rewrite writeInt16LE_clamped by assumption.
    change (repeat 0%Z (length rest * 2)) with
      (Buffer.alloc (length rest * 2)).
    rewrite (IH (S i)).
    + cbn [Spec.pcmData flat_map]. rewrite <- app_assoc. reflexivity.
    + rewrite length_app. unfold Spec.le16. cbn [length]. lia.
Qed.

Lemma writeSamples_revisions_agree (samples : list R) :
  forall (i : nat) (buffer : Buffer.t),
    Part001.writeSamples samples i buffer
    = Service.writeSamples samples i buffer.
Proof.
  induction samples as [| x rest IH]; intros i buffer.
  - reflexivity.
  - cbn [Part001.writeSamples Service.writeSamples].
    destruct (Buffer.writeInt16LE _ _ _); [apply IH | reflexivity].
Qed.

Lemma pcmData_length (samples : list R) :
  length (Spec.pcmData samples) = (2 * length samples)%nat.
Proof.
  induction samples as [| x rest IH].
  - reflexivity.
  - cbn [Spec.pcmData flat_map]. rewrite length_app.
    fold (Spec.pcmData rest). rewrite IH.
    unfold Spec.le16. cbn [length]. lia.
Qed.

Lemma pcmData_decode (samples : list R) :
  Spec.decodeInt16LE (Spec.pcmData samples) = map Spec.quantize samples.
Proof.
  induction samples as [| x rest IH].
  - reflexivity.
  - cbn [Spec.pcmData flat_map map].
    fold (Spec.pcmData rest).
    pose proof (le16_signed_value (Spec.quantize x)) as Hv.
    pose proof (quantize_range x) as Hr.
    specialize (Hv ltac:(lia)).
    unfold Spec.le16 in *. cbn [app Spec.decodeInt16LE] in *.
    injection Hv as Hv. rewrite Hv, IH. reflexivity.
Qed.

Lemma createWavData_bytes (samples : list R) :
  (36 + 2 * Z.of_nat (length samples) <= 4294967295)%Z ->
  Service.createWavData samples
  = Some (Spec.wavHeader (Z.of_nat (length samples)) ++ Spec.pcmData samples).
Proof.
  intro Hmax. unfold Service.createWavData.
  pose proof (writeSamples_bytes samples 0 [] eq_refl) as Hw.
  cbn [app] in Hw. rewrite Hw.
  rewrite getWavHeader_bytes by lia.
  unfold Buffer.concat. cbn [concat]. rewrite app_nil_r. reflexivity.
Qed.

Lemma encodeWav_revisions_agree (samples : list R) :
  Part001.encodeWav samples = Service.createWavData samples.
Proof.
  unfold Part001.encodeWav, Service.createWavData.
  rewrite writeSamples_revisions_agree. reflexivity.
Qed.

(** C4: for every sequence of samples, in range or not, the quantizing
    loop of both revisions succeeds and fills the data buffer with, for
    each sample in order, the little-endian signed 16-bit encoding of
    truncate(clamp(sample) * 32767); every value a decoder reads back lies
    in [-32767, 32767], the data is exactly twice as many bytes as there
    are samples, and the samples 2.0 and -5.0 quantize to 32767 and
    -32767. *)
Theorem pcm_quantizer_clamps (samples : list R) :
  Service.writeSamples samples 0 (Buffer.alloc (length samples * 2))
  = Some (Spec.pcmData samples)
  /\ Part001.writeSamples samples 0 (Buffer.alloc (length samples * 2))
     = Some (Spec.pcmData samples)
  /\ Spec.decodeInt16LE (Spec.pcmData samples) = map Spec.quantize samples
  /\ Forall (fun v => (-32767 <= v <= 32767)%Z)
       (Spec.decodeInt16LE (Spec.pcmData samples))
  /\ length (Spec.pcmData samples) = (2 * length samples)%nat
  /\ Spec.quantize 2.0 = 32767%Z
  /\ Spec.quantize (-5.0) = (-32767)%Z.
Proof.
  assert (Hw : Service.writeSamples samples 0
                 (Buffer.alloc (length samples * 2))
               = Some (Spec.pcmData samples)).
  { pose proof (writeSamples_bytes samples 0 [] eq_refl) as Hw.
    cbn [app] in Hw. exact Hw. }
  split; [exact Hw |].
  split; [rewrite writeSamples_revisions_agree; exact Hw |].
  split; [apply pcmData_decode |].
  split.
  - rewrite pcmData_decode. apply Forall_map, Forall_forall.
    intros x _. apply quantize_range.
  - split; [apply pcmData_length |].
    split; [apply quantize_above | apply quantize_below]; lra.
Qed.

(** ** WavContainerWriter *)

(** C3, as amended: for every sample count n with 0 <= n and
    36 + 2n <= 4294967295 (the largest value of the 32-bit ChunkSize
    field), [getWavHeader] of both revisions returns exactly the 44-byte
    header of the specification: 'RIFF' at 0, ChunkSize = 36 + 2n at 4,
    'WAVE' at 8, 'fmt ' at 12, Subchunk1Size = 16, AudioFormat = 1,
    NumChannels = 1, SampleRate = 44100, ByteRate = 88200, BlockAlign = 2,
    BitsPerSample = 16, 'data' at 36 and Subchunk2Size = 2n at 40, all
    little-endian; and the WAV bytes of n samples are this header
    followed by the 2n quantized data bytes. *)
Theorem wav_container_layout (n : Z) :
  (0 <= n)%Z -> (36 + 2 * n <= 4294967295)%Z ->
  Service.getWavHeader n 44100 = Some (Spec.wavHeader n)
  /\ Part001.getWavHeader n Part001.sampleRate = Some (Spec.wavHeader n)
  /\ (length (Spec.wavHeader n) = 44%nat
      /\ Buffer.slice (Spec.wavHeader n) 0 4 = Buffer.utf8 "RIFF"
      /\ Buffer.readUInt32LE (Spec.wavHeader n) 4 = (36 + 2 * n)%Z
      /\ Buffer.slice (Spec.wavHeader n) 8 4 = Buffer.utf8 "WAVE"
      /\ Buffer.slice (Spec.wavHeader n) 12 4 = Buffer.utf8 "fmt "
      /\ Buffer.readUInt32LE (Spec.wavHeader n) 16 = 16%Z
      /\ Buffer.readUInt16LE (Spec.wavHeader n) 20 = 1%Z
      /\ Buffer.readUInt16LE (Spec.wavHeader n) 22 = 1%Z
      /\ Buffer.readUInt32LE (Spec.wavHeader n) 24 = 44100%Z
      /\ Buffer.readUInt32LE (Spec.wavHeader n) 28 = 88200%Z
      /\ Buffer.readUInt16LE (Spec.wavHeader n) 32 = 2%Z
      /\ Buffer.readUInt16LE (Spec.wavHeader n) 34 = 16%Z
      /\ Buffer.slice (Spec.wavHeader n) 36 4 = Buffer.utf8 "data"
      /\ Buffer.readUInt32LE (Spec.wavHeader n) 40 = (2 * n)%Z)
  /\ (forall samples : list R,
        Z.of_nat (length samples) = n ->
        Service.createWavData samples
        = Some (Spec.wavHeader n ++ Spec.pcmData samples)
        /\ Part001.encodeWav samples
           = Some (Spec.wavHeader n ++ Spec.pcmData samples)
        /\ length (Spec.pcmData samples) = Z.to_nat (2 * n)).
Proof.
  intros Hn Hmax.
  split; [now apply getWavHeader_bytes |].
  split; [rewrite getWavHeader_revisions_agree; now apply getWavHeader_bytes |].
  split; [now apply wavHeader_fields |].
  intros samples Hlen. subst n.
  split; [now apply createWavData_bytes |].
  split.
  { etransitivity; [apply encodeWav_revisions_agree |].
    now apply createWavData_bytes. }
  rewrite pcmData_length. lia.
Qed.

Lemma wav_container_layout_witness :
  Service.getWavHeader 4410 44100 = Some (Spec.wavHeader 4410)
  /\ Buffer.readUInt32LE (Spec.wavHeader 4410) 40 = 8820%Z
  /\ Service.createWavData (repeat 0 4410)
     = Some (Spec.wavHeader 4410 ++ Spec.pcmData (repeat 0 4410)).
Proof.
  assert (H0 : (0 <= 4410)%Z) by lia.
  assert (H1 : (36 + 2 * 4410 <= 4294967295)%Z) by lia.
  destruct (wav_container_layout 4410 H0 H1) as (Hh & _ & Hf & Hd).
  split; [exact Hh |].
  split; [apply Hf |].
  apply (Hd (repeat 0 4410)).
  rewrite repeat_length. reflexivity.
Defined.

(** C3 as stated fails for large n: 2147483630 samples need
    ChunkSize = 4294967296, which [writeUInt32LE] refuses, so no header
    is produced. *)
Lemma wav_header_chunk_size_overflow :
  Service.getWavHeader 2147483630 44100 = None
  /\ Part001.getWavHeader 2147483630 Part001.sampleRate = None.
Proof. split; vm_compute; reflexivity. Qed.

(** C8: for the empty day sequence both revisions raise no error and
    produce a WAV buffer of exactly 44 bytes, the header alone, with
    Subchunk2Size = 0 and ChunkSize = 36. *)
Theorem empty_sequence_header_only :
  Service.createWavData (Service.createSamplesFromContributions [])
  = Some (Spec.wavHeader 0)
  /\ (forall (username : string) (isStream : bool),
        Service.generateAndSendMusic (fun _ => Some []) username isStream
        = Service.Mp3Response ("temp/" ++ username ++ ".wav")
            ("temp/" ++ username ++ ".mp3") (Spec.wavHeader 0) isStream)
  /\ (forall (random : nat -> R) (instrumentId : Z) (tempo volume : option R)
             (k : nat),
        Part001.customWavData random instrumentId tempo volume [] k
        = (Some (Spec.wavHeader 0), k))
  /\ length (Spec.wavHeader 0) = 44%nat
  /\ Buffer.readUInt32LE (Spec.wavHeader 0) 40 = 0%Z
  /\ Buffer.readUInt32LE (Spec.wavHeader 0) 4 = 36%Z.
Proof.
  assert (He : Service.createWavData [] = Some (Spec.wavHeader 0)).
  { rewrite createWavData_bytes by (cbn; lia).
    cbn [length Z.of_nat Spec.pcmData flat_map]. now rewrite app_nil_r. }
  split; [exact He |].
  split.
  { intros username isStream. unfold Service.generateAndSendMusic.
    change (Service.createSamplesFromContributions []) with (@nil R).
    rewrite He. reflexivity. }
  split.
  { intros random instrumentId tempo volume k.
    unfold Part001.customWavData, Part001.customSamples,
      Part001.renderSamples, bind, ret.
    cbn [Part001.frequenciesAndDurations map mapM concat ret bind].
    unfold ret. rewrite <- He. reflexivity. }
  destruct (wavHeader_fields 0 ltac:(lia) ltac:(lia))
    as (Hl & _ & Hc & _ & _ & _ & _ & _ & _ & _ & _ & _ & _ & Hd).
  split; [exact Hl |]. split; [exact Hd | exact Hc].
Qed.

(** ** Computations over the random source *)

Section RandLemmas.

Context {A B : Type}.

Lemma mapM_cons (f : A -> Rand B) (x : A) (xs : list A) (k : nat) :
  mapM f (x :: xs) k
  = (fst (f x k) :: fst (mapM f xs (snd (f x k))),
     snd (mapM f xs (snd (f x k)))).
Proof.
  cbn [mapM]. unfold bind, ret.
  destruct (f x k) as [y k1]. cbn [fst snd].
  destruct (mapM f xs k1) as [ys k2]. reflexivity.
Qed.

Lemma mapM_length (f : A -> Rand B) (l : list A) :
  forall k, length (fst (mapM f l k)) = length l.
Proof.
  induction l as [| x xs IH]; intro k.
  - reflexivity.
  - rewrite mapM_cons. cbn [fst length]. now rewrite IH.
Qed.

Lemma mapM_app (f : A -> Rand B) (l1 l2 : list A) :
  forall k,
    mapM f (l1 ++ l2) k
    = (fst (mapM f l1 k) ++ fst (mapM f l2 (snd (mapM f l1 k))),
       snd (mapM f l2 (snd (mapM f l1 k)))).
Proof.
  induction l1 as [| x xs IH]; intro k.
  - cbn [app mapM]. unfold ret. cbn [fst snd app].
    now destruct (mapM f l2 k).
  - cbn [app]. rewrite !mapM_cons, IH. reflexivity.
Qed.

Lemma mapM_pure (f : A -> Rand B) (g : A -> B) :
  (forall x k, f x k = (g x, k)) ->
  forall l k, mapM f l k = (map g l, k).
Proof.
  intros Hf l. induction l as [| x xs IH]; intro k.
  - reflexivity.
  - rewrite mapM_cons, Hf. cbn [fst snd]. now rewrite IH.
Qed.

Lemma mapM_Forall2 (f : A -> Rand B) (l : list A) :
  forall k,
    Forall2 (fun x y => exists k', y = fst (f x k')) l (fst (mapM f l k)).
Proof.
  induction l as [| x xs IH]; intro k.
  - constructor.
  - rewrite mapM_cons. cbn [fst]. constructor.
    + now exists k.
    + apply IH.
Qed.

Lemma mapM_head (f : A -> Rand B) (x : A) (xs : list A) (k : nat) (d : B) :
  hd d (fst (mapM f (x :: xs) k)) = fst (f x k).
Proof. now rewrite mapM_cons. Qed.

End RandLemmas.

Lemma foldM_sum {A : Type} (f : A -> Rand R) (l : list A) :
  forall (acc : R) (k : nat),
    foldM (fun sample x => w <- f x ;; ret (sample + w)) acc l k
    = (acc + fold_right Rplus 0 (fst (mapM f l k)), snd (mapM f l k)).
Proof.
  induction l as [| x xs IH]; intros acc k.
  - cbn [foldM mapM]. unfold ret. cbn [fst snd fold_right].
    f_equal. lra.
  - cbn [foldM]. rewrite mapM_cons. unfold bind at 1.
    unfold bind at 1. unfold ret at 1.
    destruct (f x k) as [w k1]. cbn [fst snd fold_right].
    rewrite IH. f_equal. lra.
Qed.

Lemma Zceil_IZR (z : Z) : Zceil (IZR z) = z.
Proof. unfold Zceil. rewrite ZfloorNZ. lia. Qed.

Lemma loop_count_IZR (z : Z) : JS.loop_count (IZR z) = Z.to_nat z.
Proof. unfold JS.loop_count. now rewrite Zceil_IZR. Qed.

(** ** SampleRenderer, custom mode *)

Lemma renderSamples_runs (random : nat -> R) (instrumentId : Z) (volume : R)
    (notes : list Part001.Note) (k : nat) :
  Part001.renderSamples random instrumentId volume notes k
  = (concat (fst (mapM (Part001.noteSamples random instrumentId volume)
                       notes k)),
     snd (mapM (Part001.noteSamples random instrumentId volume) notes k)).
Proof.
  unfold Part001.renderSamples, bind, ret.
  now destruct (mapM _ notes k).
Qed.

Lemma renderSamples_app (random : nat -> R) (instrumentId : Z) (volume : R)
    (notes1 notes2 : list Part001.Note) (k : nat) :
  fst (Part001.renderSamples random instrumentId volume (notes1 ++ notes2) k)
  = fst (Part001.renderSamples random instrumentId volume notes1 k)
    ++ fst (Part001.renderSamples random instrumentId volume notes2
              (snd (Part001.renderSamples random instrumentId volume
                      notes1 k))).
Proof.
  rewrite !renderSamples_runs, mapM_app. cbn [fst snd].
  apply concat_app.
Qed.

Lemma noteSamples_length (random : nat -> R) (instrumentId : Z) (volume : R)
    (note : Part001.Note) (k : nat) :
  length (fst (Part001.noteSamples random instrumentId volume note k))
  = Z.to_nat (JS.Math_floor (44100 * Part001.noteDuration note)).
Proof.
  unfold Part001.noteSamples.
  now rewrite mapM_length, length_seq, loop_count_IZR.
Qed.

Lemma renderSamples_length (random : nat -> R) (instrumentId : Z)
    (volume : R) (notes : list Part001.Note) :
  forall k,
    length (fst (Part001.renderSamples random instrumentId volume notes k))
    = list_sum
        (map (fun note =>
                Z.to_nat (JS.Math_floor (44100 * Part001.noteDuration note)))
             notes).
Proof.
  induction notes as [| note rest IH]; intro k.
  - reflexivity.
  - change (note :: rest) with ([note] ++ rest).
    rewrite renderSamples_app, length_app, IH.
    rewrite renderSamples_runs, mapM_cons.
    cbn [fst mapM concat ret app map list_sum].
    now rewrite app_nil_r, noteSamples_length.
Qed.

Lemma customSamples_length (random : nat -> R) (instrumentId : Z)
    (tempo volume : option R) (days : list ContributionDay) (k : nat) :
  length (fst (Part001.customSamples random instrumentId tempo volume days k))
  = list_sum
      (map (fun day =>
              Z.to_nat
                (JS.Math_floor
                   (44100 * Part001.getNoteDurationFromContribution
                              (contributionCount day)
                              (Part001.tempoOrDefault tempo))))
           days).
Proof.
  unfold Part001.customSamples.
  rewrite renderSamples_length.
  unfold Part001.frequenciesAndDurations. rewrite map_map. reflexivity.
Qed.

Lemma customSamples_single (random : nat -> R) (instrumentId : Z)
    (tempo volume : option R) (day : ContributionDay) (k : nat) :
  fst (Part001.customSamples random instrumentId tempo volume [day] k)
  = fst (mapM
           (Part001.noteSample
              (Part001.getInstrumentWaveform random instrumentId)
              (Part001.volumeOrDefault volume)
              (Part001.getFrequencyFromContribution (contributionCount day))
              (Part001.getChordFromContribution (contributionCount day)
                 (Part001.getFrequencyFromContribution
                    (contributionCount day))))
           (seq 0
              (Z.to_nat
                 (JS.Math_floor
                    (44100 * Part001.getNoteDurationFromContribution
                               (contributionCount day)
                               (Part001.tempoOrDefault tempo)))))
           k).
Proof.
  unfold Part001.customSamples. rewrite renderSamples_runs.
  cbn [Part001.frequenciesAndDurations map]. rewrite mapM_cons.
  cbn [fst mapM concat ret]. rewrite app_nil_r.
  unfold Part001.noteSamples. rewrite loop_count_IZR. reflexivity.
Qed.

(** C2, as amended: in custom-mode rendering every day record, in input
    order, contributes exactly floor(44100 * durationSeconds) samples
    (durationSeconds from [getNoteDurationFromContribution] at the tempo
    in force); the total is the sum of the per-day counts; the samples of
    a concatenation of day sequences are the samples of the first followed
    by those of the second; and the sample at index i of a day's run is
    the loop body at local index i, whose time is t = i/44100, so t is 0
    at the start of every day. *)
Theorem custom_mode_sample_counts (random : nat -> R) (instrumentId : Z)
    (tempo volume : option R) :
  let perDay := fun day : ContributionDay =>
    Z.to_nat
      (JS.Math_floor
         (44100 * Part001.getNoteDurationFromContribution
                    (contributionCount day) (Part001.tempoOrDefault tempo))) in
  let samplesOf := Part001.customSamples random instrumentId tempo volume in
  (forall days k,
      length (fst (samplesOf days k)) = list_sum (map perDay days))
  /\ (forall days1 days2 k,
        fst (samplesOf (days1 ++ days2) k)
        = fst (samplesOf days1 k)
          ++ fst (samplesOf days2 (snd (samplesOf days1 k))))
  /\ (forall day k,
        Forall2
          (fun i sample =>
             exists k',
               sample
               = fst (Part001.noteSample
                        (Part001.getInstrumentWaveform random instrumentId)
                        (Part001.volumeOrDefault volume)
                        (Part001.getFrequencyFromContribution
                           (contributionCount day))
                        (Part001.getChordFromContribution
                           (contributionCount day)
                           (Part001.getFrequencyFromContribution
                              (contributionCount day)))
                        i k'))
          (seq 0 (perDay day)) (fst (samplesOf [day] k)))
  /\ (forall (waveform : R -> R -> Rand R) (vol freq : R) (i k : nat),
        fst (Part001.noteSample waveform vol freq None i k)
        = fst (waveform freq (INR i / 44100) k) * vol).
Proof.
  cbv zeta. split; [| split; [| split]].
  - intros days k. apply customSamples_length.
  - intros days1 days2 k. unfold Part001.customSamples.
    unfold Part001.frequenciesAndDurations. rewrite map_app.
    apply renderSamples_app.
  - intros day k. rewrite customSamples_single. apply mapM_Forall2.
  - intros waveform vol freq i k.
    unfold Part001.noteSample, bind, ret, Part001.sampleRate.
    now destruct (waveform freq (INR i / 44100) k).
Qed.

(** C2 as stated fails: at tempo 80 a day with no contribution lasts
    0.1875 s, that is 8268.75 sample periods; the loop pushes 8268
    samples, whereas round(44100 * 0.1875) is 8269. *)
Lemma sample_count_is_floor_not_round :
  Z.of_nat
    (length (fst (Part001.customSamples (fun _ => 0) 1 (Some 80) (Some 0.5)
                    [mkDay "2023-01-01" 0] 0%nat)))
  = 8268%Z
  /\ JS.Math_round (44100 * Part001.getNoteDurationFromContribution 0 80)
     = 8269%Z.
Proof.
  assert (Hdur : Part001.getNoteDurationFromContribution 0 80 = 0.1875).
  { unfold Part001.getNoteDurationFromContribution.
    cbn [Z.leb Z.compare]. lra. }
  assert (Htempo : Part001.tempoOrDefault (Some 80) = 80).
  { unfold Part001.tempoOrDefault. destruct (Req_dec_T 80 0); [lra | easy]. }
  split.
  - rewrite customSamples_length.
    cbn [map list_sum contributionCount]. rewrite Htempo, Hdur.
    unfold JS.Math_floor.
    rewrite (Zfloor_eq 8268) by lra. cbn [list_sum fold_right]. lia.
  - rewrite Hdur. unfold JS.Math_round.
    apply Zfloor_eq. lra.
Qed.

(** ** WaveformSynthesizer *)

Lemma rem_nonneg (t p : R) : 0 <= t -> 0 < p -> JS.rem t p = Spec.fmod t p.
Proof.
  intros Ht Hp. unfold JS.rem, Spec.fmod, JS.truncate.
  destruct (Rle_dec 0 (t / p)) as [_ | Hneg]; [reflexivity |].
  exfalso. apply Hneg. apply Rle_mult_inv_pos; assumption.
Qed.

Ltac split_selector p :=
  destruct p as [p | p |]; [destruct p as [p | p |] ..|];
  try (destruct p as [p | p |]); try (destruct p as [p | p |]).

Lemma waveform_fallback (random : nat -> R) (instrumentId : Z) :
  (instrumentId < 1 \/ 8 < instrumentId)%Z ->
  Part001.getInstrumentWaveform random instrumentId
  = Part001.getInstrumentWaveform random 1.
Proof.
  intro Hout.
  destruct instrumentId as [| p | p]; try reflexivity.
  split_selector p; try reflexivity; exfalso; lia.
Qed.

Lemma waveform_draw_free (random : nat -> R) (instrumentId : Z) :
  instrumentId <> 6%Z ->
  forall (freq t : R) (k : nat),
    Part001.getInstrumentWaveform random instrumentId freq t k
    = (drawFreeWaveform instrumentId freq t, k).
Proof.
  intros Hid freq t k. unfold drawFreeWaveform.
  destruct instrumentId as [| p | p]; try reflexivity.
  split_selector p; try reflexivity; exfalso; now apply Hid.
Qed.

Lemma noteSample_chord_mean (waveform : R -> R -> Rand R)
    (volume freq : R) (pitches : list R) (i k : nat) :
  fst (Part001.noteSample waveform volume freq (Some pitches) i k)
  = Spec.mean
      (fst (mapM (fun pitch => waveform pitch (INR i / 44100)) pitches k))
    * volume.
Proof.
  unfold Part001.noteSample, Part001.sampleRate, Spec.mean.
  unfold bind at 1. unfold bind at 1.
  rewrite foldM_sum. unfold ret. cbn [fst].
  rewrite mapM_length. f_equal. f_equal. lra.
Qed.

Lemma noteSample_draw_free (waveform : R -> R -> Rand R)
    (pure : R -> R -> R) (volume freq : R) (chord : option (list R))
    (i k : nat) :
  (forall f t k', waveform f t k' = (pure f t, k')) ->
  Part001.noteSample waveform volume freq chord i k
  = (drawFreeSample pure volume freq chord i, k).
Proof.
  intro Hw.
  unfold Part001.noteSample, drawFreeSample, Part001.sampleRate.
  destruct chord as [pitches |].
  - unfold bind at 1. unfold bind at 1.
    rewrite foldM_sum.
    rewrite (mapM_pure _ (fun pitch => pure pitch (INR i / 44100)))
      by (intros; apply Hw).
    reflexivity.
  - unfold bind. rewrite Hw. reflexivity.
Qed.

(** C7: for every frequency f > 0 and time t >= 0, the waveform selected
    by instrumentId is the specification's formula for ids 1 to 8 (the
    noise burst of id 6 is one draw u of the random source, rescaled to
    2u - 1 in [-1, 1] and multiplied by exp(-5t)); every id outside 1..8
    selects the pure sine of id 1; and when a chord is active the sample
    pushed is the arithmetic mean of the waveform at the chord's pitches
    for the same t, times the volume. *)
Theorem waveform_synthesizer (random : nat -> R) (f t : R) (k : nat) :
  0 < f -> 0 <= t ->
  let waveform := fun instrumentId : Z =>
    Part001.getInstrumentWaveform random instrumentId f t k in
  waveform 1%Z = (sin (2 * PI * f * t), k)
  /\ waveform 2%Z
     = ((sin (2 * PI * f * t) + 0.5 * sin (2 * PI * (2 * f) * t)) / 1.5, k)
  /\ waveform 3%Z = (2 / PI * asin (sin (2 * PI * f * t)), k)
  /\ waveform 4%Z = (2 * Spec.fmod t (1 / f) / (1 / f) - 1, k)
  /\ waveform 5%Z = (JS.Math_sign (sin (2 * PI * f * t)), k)
  /\ waveform 6%Z = ((2 * random k - 1) * exp (-5 * t), S k)
  /\ (0 <= random k < 1 -> -1 <= 2 * random k - 1 <= 1)
  /\ waveform 7%Z = (sin (2 * PI * f * t) * sin (PI * f * t), k)
  /\ waveform 8%Z = (sin (2 * PI * f * t + 5 * sin (2 * PI * 5 * t)), k)
  /\ (forall instrumentId : Z,
        (instrumentId < 1 \/ 8 < instrumentId)%Z ->
        waveform instrumentId = waveform 1%Z)
  /\ (forall (instrumentId : Z) (volume freq : R) (pitches : list R)
             (i : nat),
        fst (Part001.noteSample
               (Part001.getInstrumentWaveform random instrumentId)
               volume freq (Some pitches) i k)
        = Spec.mean
            (fst (mapM
                    (fun pitch =>
                       Part001.getInstrumentWaveform random instrumentId
                         pitch (INR i / 44100))
                    pitches k))
          * volume).
Proof.
  intros Hf Ht. cbv zeta.
  assert (Hperiod : 0 < 1 / f) by (apply Rdiv_lt_0_compat; lra).
  split; [reflexivity |].
  split.
  { cbn [Part001.getInstrumentWaveform]. unfold ret.
    now replace (2 * PI * f * 2 * t) with (2 * PI * (2 * f) * t) by ring. }
  split; [reflexivity |].
  split.
  { cbn [Part001.getInstrumentWaveform]. unfold ret.
    now rewrite rem_nonneg. }
  split; [reflexivity |].
  split.
  { cbn [Part001.getInstrumentWaveform].
    unfold bind, Part001.Math_random, ret.
    replace (random k * 2 - 1) with (2 * random k - 1) by ring.
    now replace (- t * 5) with (-5 * t) by ring. }
  split; [lra |].
  split.
  { cbn [Part001.getInstrumentWaveform]. unfold ret.
    now replace (2 * PI * f * t * 0.5) with (PI * f * t) by lra. }
  split; [reflexivity |].
  split.
  { intros instrumentId Hout. now rewrite waveform_fallback. }
  intros. apply noteSample_chord_mean.
Qed.

Lemma waveform_synthesizer_witness :
  Part001.getInstrumentWaveform (fun _ => / 2) 9 440 (/ 44100) 0%nat
  = Part001.getInstrumentWaveform (fun _ => / 2) 1 440 (/ 44100) 0%nat
  /\ Part001.getInstrumentWaveform (fun _ => / 2) 4 440 (/ 44100) 0%nat
     = (2 * Spec.fmod (/ 44100) (1 / 440) / (1 / 440) - 1, 0%nat)
  /\ -1 <= 2 * / 2 - 1 <= 1.
Proof.
  assert (Hf : 0 < 440) by lra.
  assert (Ht : 0 <= / 44100) by lra.
  destruct (waveform_synthesizer (fun _ => / 2) 440 (/ 44100) 0 Hf Ht)
    as (_ & _ & _ & Hsaw & _ & _ & Hnoise & _ & _ & Hfallback & _).
  split; [| split].
  - apply Hfallback. right. lia.
  - exact Hsaw.
  - apply Hnoise. lra.
Defined.

(** ** Determinism of the rendering pipeline *)

Lemma renderSamples_draw_free (random : nat -> R) (instrumentId : Z)
    (volume : R) (notes : list Part001.Note) (k : nat) :
  instrumentId <> 6%Z ->
  Part001.renderSamples random instrumentId volume notes k
  = (concat
       (map (fun note =>
               map (drawFreeSample (drawFreeWaveform instrumentId) volume
                      (Part001.freq note) (Part001.chord note))
                   (seq 0
                      (Z.to_nat
                         (JS.Math_floor
                            (44100 * Part001.noteDuration note)))))
            notes),
     k).
Proof.
  intro Hid. rewrite renderSamples_runs.
  rewrite (mapM_pure _
             (fun note =>
                map (drawFreeSample (drawFreeWaveform instrumentId) volume
                       (Part001.freq note) (Part001.chord note))
                    (seq 0
                       (Z.to_nat
                          (JS.Math_floor
                             (44100 * Part001.noteDuration note)))))).
  - reflexivity.
  - intros note k'. unfold Part001.noteSamples.
    rewrite loop_count_IZR. apply mapM_pure.
    intros i k''. apply noteSample_draw_free.
    intros. now apply waveform_draw_free.
Qed.

Lemma customSamples_draw_free (random1 random2 : nat -> R)
    (instrumentId : Z) (tempo volume : option R)
    (days : list ContributionDay) (k1 k2 : nat) :
  instrumentId <> 6%Z ->
  fst (Part001.customSamples random1 instrumentId tempo volume days k1)
  = fst (Part001.customSamples random2 instrumentId tempo volume days k2).
Proof.
  intro Hid. unfold Part001.customSamples.
  now rewrite !renderSamples_draw_free.
Qed.

Lemma noise_first_sample (random : nat -> R) (k : nat) :
  hd 0 (fst (Part001.customSamples random 6 None None
               [mkDay "2023-01-01" 0] k))
  = (random k * 2 - 1) * exp (- (0 / 44100) * 5) * 0.5.
Proof.
  rewrite customSamples_single.
  cbn [contributionCount Part001.tempoOrDefault Part001.volumeOrDefault].
  assert (Hcount :
            JS.Math_floor (44100 * Part001.getNoteDurationFromContribution 0 120)
            = 5512%Z).
  { unfold Part001.getNoteDurationFromContribution, JS.Math_floor.
    cbn [Z.leb Z.compare]. apply Zfloor_eq. lra. }
  rewrite Hcount.
  replace (Z.to_nat 5512) with (S (Z.to_nat 5511)) by lia.
  cbn [seq]. rewrite mapM_head.
  reflexivity.
Qed.

(** C9: for every day sequence and configuration with instrumentId <> 6,
    two runs of the rendering pipeline, whatever the random source yields
    in each, produce the same samples and the same WAV bytes; such a
    waveform makes no draw, whereas waveform 6 makes one draw per
    evaluation, and two runs of instrument 6 on the same input can
    differ. *)
Theorem rendering_deterministic_except_noise (instrumentId : Z)
    (tempo volume : option R) (days : list ContributionDay) :
  instrumentId <> 6%Z ->
  (forall (random1 random2 : nat -> R) (k1 k2 : nat),
      fst (Part001.customSamples random1 instrumentId tempo volume days k1)
      = fst (Part001.customSamples random2 instrumentId tempo volume days k2)
      /\ fst (Part001.customWavData random1 instrumentId tempo volume days k1)
         = fst (Part001.customWavData random2 instrumentId tempo volume
                  days k2))
  /\ (forall (random : nat -> R) (freq t : R) (k : nat),
        snd (Part001.getInstrumentWaveform random instrumentId freq t k) = k
        /\ snd (Part001.getInstrumentWaveform random 6 freq t k) = S k)
  /\ (exists random1 random2 : nat -> R,
        (forall n, 0 <= random1 n < 1) /\ (forall n, 0 <= random2 n < 1)
        /\ fst (Part001.customSamples random1 6 None None
                  [mkDay "2023-01-01" 0] 0%nat)
           <> fst (Part001.customSamples random2 6 None None
                     [mkDay "2023-01-01" 0] 0%nat)).
Proof.
  intro Hid. split; [| split].
  - intros random1 random2 k1 k2.
    pose proof (customSamples_draw_free random1 random2 instrumentId tempo
                  volume days k1 k2 Hid) as Hs.
    split; [exact Hs |].
    unfold Part001.customWavData, bind, ret.
    destruct (Part001.customSamples random1 _ _ _ _ k1) as [s1 k1'].
    destruct (Part001.customSamples random2 _ _ _ _ k2) as [s2 k2'].
    cbn [fst] in *. now rewrite Hs.
  - intros random freq t k. split.
    + now rewrite waveform_draw_free.
    + reflexivity.
  - exists (fun _ => 0), (fun _ => / 2).
    split; [intro; lra |]. split; [intro; lra |].
    intro Heq. apply (f_equal (hd 0)) in Heq.
    rewrite !noise_first_sample in Heq.
    pose proof (exp_pos (- (0 / 44100) * 5)) as Hexp.
    nra.
Qed.

Lemma rendering_deterministic_except_noise_witness :
  fst (Part001.customSamples (fun _ => 0) 1 (Some 120) (Some 0.5)
         [mkDay "2023-01-02" 60] 0%nat)
  = fst (Part001.customSamples (fun _ => / 2) 1 (Some 120) (Some 0.5)
           [mkDay "2023-01-02" 60] 7%nat).
Proof.
  assert (Hid : 1%Z <> 6%Z) by lia.
  destruct (rendering_deterministic_except_noise 1 (Some 120) (Some 0.5)
              [mkDay "2023-01-02" 60] Hid) as (Hruns & _).
  apply (Hruns (fun _ => 0) (fun _ => / 2) 0%nat 7%nat).
Defined.

(** ** The refactored custom entry point *)

Lemma simple_mode_length (days : list ContributionDay) :
  length (Service.createSamplesFromContributions days)
  = (4410 * length days)%nat.
Proof.
  unfold Service.createSamplesFromContributions.
  assert (Hn : JS.loop_count (44100 * 0.1) = 4410%nat).
  { unfold JS.loop_count. rewrite (Zceil_eq 4410) by lra. reflexivity. }
  rewrite Hn, flat_map_concat_map, map_map.
  induction days as [| day rest IH].
  - cbn [map concat length]. lia.
  - cbn [map concat length]. rewrite length_app, IH, length_map, length_seq.
    lia.
Qed.

(** C10: in the refactored service [generateCustomMusic] ignores
    instrumentId, tempo and volume: for every username and every two
    configurations its outcome is the same, and it is the outcome of
    [generateAndSendMusic] in attachment mode, whose WAV bytes are the
    simple-mode rendering of the fetched days. *)
Theorem custom_entry_point_ignores_configuration
    (fetchContributionDays : string -> option (list ContributionDay))
    (username : string) (instrumentId1 instrumentId2 : Z)
    (tempo1 volume1 tempo2 volume2 : option R) :
  Service.generateCustomMusic fetchContributionDays username instrumentId1
    tempo1 volume1
  = Service.generateCustomMusic fetchContributionDays username instrumentId2
      tempo2 volume2
  /\ Service.generateCustomMusic fetchContributionDays username instrumentId1
       tempo1 volume1
     = Service.generateAndSendMusic fetchContributionDays username false
  /\ (forall days : list ContributionDay,
        fetchContributionDays username = Some days ->
        (36 + 2 * (4410 * Z.of_nat (length days)) <= 4294967295)%Z ->
        Service.generateCustomMusic fetchContributionDays username
          instrumentId1 tempo1 volume1
        = Service.Mp3Response ("temp/" ++ username ++ ".wav")
            ("temp/" ++ username ++ ".mp3")
            (Spec.wavHeader (4410 * Z.of_nat (length days))
             ++ Spec.pcmData (Service.createSamplesFromContributions days))
            false).
Proof.
  split; [reflexivity |]. split; [reflexivity |].
  intros days Hfetch Hmax.
  unfold Service.generateCustomMusic, Service.generateAndSendMusic.
  rewrite Hfetch.
  assert (Hlen : Z.of_nat (length (Service.createSamplesFromContributions days))
                 = (4410 * Z.of_nat (length days))%Z)
    by (rewrite simple_mode_length; lia).
  rewrite createWavData_bytes by (rewrite Hlen; exact Hmax).
  now rewrite Hlen.
Qed.

Lemma custom_entry_point_ignores_configuration_witness :
  Service.generateCustomMusic (fun _ => Some [mkDay "2023-01-01" 0])
    "octocat" 6 (Some 90) (Some 1)
  = Service.Mp3Response "temp/octocat.wav" "temp/octocat.mp3"
      (Spec.wavHeader 4410
       ++ Spec.pcmData
            (Service.createSamplesFromContributions [mkDay "2023-01-01" 0]))
      false.
Proof.
  destruct (custom_entry_point_ignores_configuration
              (fun _ => Some [mkDay "2023-01-01" 0]) "octocat" 6 1
              (Some 90) (Some 1) None None) as (_ & _ & Hout).
  apply (Hout [mkDay "2023-01-01" 0]).
  - reflexivity.
  - cbn [length]. lia.
Defined.

(** * Further properties of the code *)

(** ** Truncation and the quantizer *)

Lemma truncate_nonneg (y : R) :
  0 <= y -> IZR (JS.truncate y) <= y < IZR (JS.truncate y) + 1.
Proof.
  intro Hy. unfold JS.truncate.
  destruct (Rle_dec 0 y) as [_ | Hneg]; [apply Zfloor_bound | lra].
Qed.

Lemma truncate_neg (y : R) :
  y < 0 -> IZR (JS.truncate y) - 1 < y <= IZR (JS.truncate y).
Proof.
  intro Hy. unfold JS.truncate.
  destruct (Rle_dec 0 y) as [Hpos | _]; [lra | apply Zceil_bound].
Qed.

Lemma truncate_sign (y : R) :
  (0 <= y -> (0 <= JS.truncate y)%Z) /\ (y <= 0 -> (JS.truncate y <= 0)%Z).
Proof.
  split; intro Hy.
  - unfold JS.truncate. destruct (Rle_dec 0 y) as [_ | Hneg]; [| lra].
    now apply (Zfloor_lub 0).
  - destruct (Req_dec y 0) as [-> | Hnz].
    + change 0 with (IZR 0). rewrite truncate_IZR. lia.
    + assert (Hlt : y < 0) by lra.
      pose proof (truncate_neg y Hlt) as [Hlo _].
      assert (IZR (JS.truncate y) < IZR 1) by lra.
      apply lt_IZR in H. lia.
Qed.

Lemma truncate_monotone (x y : R) :
  x <= y -> (JS.truncate x <= JS.truncate y)%Z.
Proof.
  intro Hxy.
  destruct (Rle_dec 0 x) as [Hx | Hx]; destruct (Rle_dec 0 y) as [Hy | Hy].
  - unfold JS.truncate.
    destruct (Rle_dec 0 x); [| lra]. destruct (Rle_dec 0 y); [| lra].
    now apply Zfloor_le.
  - lra.
  - pose proof (proj2 (truncate_sign x) ltac:(lra)).
    pose proof (proj1 (truncate_sign y) Hy). lia.
  - unfold JS.truncate.
    destruct (Rle_dec 0 x); [lra |]. destruct (Rle_dec 0 y); [lra |].
    now apply Zceil_le.
Qed.

Lemma truncate_opp (y : R) : JS.truncate (- y) = (- JS.truncate y)%Z.
Proof.
  destruct (Req_dec y 0) as [-> | Hnz].
  - rewrite Ropp_0. change 0 with (IZR 0). rewrite truncate_IZR. reflexivity.
  - unfold JS.truncate.
    destruct (Rle_dec 0 y) as [Hy | Hy];
      destruct (Rle_dec 0 (- y)) as [Hy' | Hy']; try lra.
    + apply ZceilN.
    + apply ZfloorN.
Qed.

Lemma clamp_monotone (x y : R) : x <= y -> Spec.clamp x <= Spec.clamp y.
Proof.
  intro Hxy. unfold Spec.clamp.
  apply Rle_max_compat_l. now apply Rle_min_compat_l.
Qed.

Lemma clamp_opp (x : R) : Spec.clamp (- x) = - Spec.clamp x.
Proof.
  unfold Spec.clamp, Rmin.
  destruct (Rle_dec 1 (- x)); destruct (Rle_dec 1 x); unfold Rmax;
    repeat match goal with
      | |- context [Rle_dec ?a ?b] => destruct (Rle_dec a b)
      end; lra.
Qed.

Lemma clamp_id (x : R) : -1 <= x <= 1 -> Spec.clamp x = x.
Proof.
  intros [Hlo Hhi]. unfold Spec.clamp.
  rewrite Rmin_right by assumption. now apply Rmax_right.
Qed.

(** X1: the quantizer is monotone and odd: a larger sample never gets a
    smaller PCM value, and negating a sample negates its PCM value, so
    silence maps to 0 and the scale is symmetric. *)
Theorem quantize_monotone_odd (x y : R) :
  (x <= y -> (Spec.quantize x <= Spec.quantize y)%Z)
  /\ Spec.quantize (- x) = (- Spec.quantize x)%Z
  /\ Spec.quantize 0 = 0%Z.
Proof.
  unfold Spec.quantize. split; [| split].
  - intro Hxy. apply truncate_monotone.
    pose proof (clamp_monotone x y Hxy). lra.
  - rewrite clamp_opp.
    replace (- Spec.clamp x * 32767) with (- (Spec.clamp x * 32767)) by ring.
    apply truncate_opp.
  - rewrite clamp_id by lra.
    replace (0 * 32767) with (IZR 0) by lra. apply truncate_IZR.
Qed.

Lemma quantize_monotone_odd_witness :
  (Spec.quantize (/ 4) <= Spec.quantize (/ 2))%Z.
Proof.
  destruct (quantize_monotone_odd (/ 4) (/ 2)) as (Hmono & _).
  apply Hmono. lra.
Defined.

Lemma quantize_error (x : R) :
  Rabs (IZR (Spec.quantize x) / 32767 - Spec.clamp x) < / 32767
  /\ Rabs (IZR (Spec.quantize x) / 32767) <= Rabs (Spec.clamp x)
  /\ (0 <= x -> (0 <= Spec.quantize x)%Z)
  /\ (x <= 0 -> (Spec.quantize x <= 0)%Z).
Proof.
  unfold Spec.quantize.
  set (c := Spec.clamp x). set (q := JS.truncate (c * 32767)).
  assert (Hcases :
            (0 <= c /\ IZR q <= c * 32767 < IZR q + 1 /\ 0 <= IZR q)
            \/ (c < 0 /\ IZR q - 1 < c * 32767 <= IZR q /\ IZR q <= 0)).
  { destruct (Rle_dec 0 c) as [Hc | Hc].
    - left. split; [exact Hc |]. split.
      + apply truncate_nonneg. lra.
      + apply (IZR_le 0). apply truncate_sign. lra.
    - right. split; [lra |]. split.
      + apply truncate_neg. lra.
      + apply (IZR_le _ 0). apply truncate_sign. lra. }
  split; [| split; [| split]].
  - apply Rabs_def1; destruct Hcases as [(? & ? & ?) | (? & ? & ?)]; lra.
  - destruct Hcases as [(? & ? & ?) | (? & ? & ?)].
    + rewrite !Rabs_right by lra. lra.
    + rewrite !Rabs_left1 by lra. lra.
  - intro Hx. apply truncate_sign.
    pose proof (clamp_monotone 0 x Hx) as Hc.
    rewrite (clamp_id 0) in Hc by lra. fold c in Hc. lra.
  - intro Hx. apply truncate_sign.
    pose proof (clamp_monotone x 0 Hx) as Hc.
    rewrite (clamp_id 0) in Hc by lra. fold c in Hc. lra.
Qed.

(** X2: decoding loses less than one quantization step: for every sample
    sequence the quantizing loop succeeds, and each 16-bit value a decoder
    reads back, divided by 32767, is within 1/32767 of the clamped sample
    and never larger in magnitude. *)
Theorem pcm_round_trip_error (samples : list R) :
  exists data : Buffer.t,
    Service.writeSamples samples 0 (Buffer.alloc (length samples * 2))
    = Some data
    /\ Forall2
         (fun x v =>
            Rabs (IZR v / 32767 - Rmax (-1) (Rmin 1 x)) < / 32767
            /\ Rabs (IZR v / 32767) <= Rabs (Rmax (-1) (Rmin 1 x)))
         samples (Spec.decodeInt16LE data).
Proof.
  exists (Spec.pcmData samples). split.
  - pose proof (writeSamples_bytes samples 0 [] eq_refl) as Hw.
    cbn [app] in Hw. exact Hw.
  - rewrite pcmData_decode.
    induction samples as [| x rest IH]; cbn [map]; constructor.
    + destruct (quantize_error x) as (Herr & Hmag & _). now split.
    + exact IH.
Qed.

(** ** The header writer on every input *)

Lemma out_of_range32 (v : Z) :
  ~ (0 <= v <= 4294967295)%Z ->
  ((0 <=? v) && (v <=? 4294967295))%Z = false.
Proof.
  intro H. apply andb_false_iff.
  destruct (Z.leb_spec 0 v); [right | left; reflexivity].
  apply Z.leb_gt. lia.
Qed.

Lemma getWavHeader_succeeds (n rate : Z) :
  (0 <= n)%Z -> (36 + 2 * n <= 4294967295)%Z ->
  (0 <= rate)%Z -> (2 * rate <= 4294967295)%Z ->
  Service.getWavHeader n rate = Some (Spec.wavHeaderAt rate n).
Proof.
  intros Hn Hmax Hr Hrmax.
  unfold Service.getWavHeader, Spec.wavHeaderAt, Buffer.writeUInt32LE,
    Buffer.writeUInt16LE, Buffer.write.
  rewrite <- !uint32le_le32, <- !uint16le_le16.
  replace (n * 2)%Z with (2 * n)%Z by lia.
  rewrite !range32 by lia.
  unfold Buffer.uint32le, Buffer.uint16le.
  generalize (36 + 2 * n)%Z (2 * n)%Z (rate * 2)%Z. intros c d r2.
  repeat match goal with
    | |- context [Buffer.ToUint8 ?x] =>
        first [ mentions x c | mentions x d | mentions x r2
              | mentions x rate ];
        let b := fresh "b" in set (b := Buffer.ToUint8 x); clearbody b
    end.
  reflexivity.
Qed.

Lemma getWavHeader_fails (n rate : Z) :
  ~ ((0 <= n)%Z /\ (36 + 2 * n <= 4294967295)%Z
     /\ (0 <= rate)%Z /\ (2 * rate <= 4294967295)%Z) ->
  Service.getWavHeader n rate = None.
Proof.
  intro Hbad.
  unfold Service.getWavHeader, Buffer.writeUInt32LE.
  destruct (Z_le_dec 0 (36 + n * 2)) as [H1 | H1];
    [destruct (Z_le_dec (36 + n * 2) 4294967295) as [H2 | H2] |].
  - rewrite (range32 (36 + n * 2)) by lia.
    destruct (Z_le_dec 0 rate) as [H3 | H3];
      [destruct (Z_le_dec (rate * 2) 4294967295) as [H4 | H4] |].
    + rewrite (range32 rate), (range32 (rate * 2)) by lia.
      rewrite (out_of_range32 (n * 2)) by lia.
      reflexivity.
    + destruct (Z_le_dec rate 4294967295) as [H5 | H5].
      * rewrite (range32 rate) by lia.
        rewrite (out_of_range32 (rate * 2)) by lia.
        reflexivity.
      * rewrite (out_of_range32 rate) by lia. reflexivity.
    + rewrite (out_of_range32 rate) by lia. reflexivity.
  - rewrite (out_of_range32 (36 + n * 2)) by lia. reflexivity.
  - rewrite (out_of_range32 (36 + n * 2)) by lia. reflexivity.
Qed.

Lemma wavHeaderAt_fields (n rate : Z) :
  (0 <= n)%Z -> (36 + 2 * n <= 4294967295)%Z ->
  (0 <= rate)%Z -> (2 * rate <= 4294967295)%Z ->
  length (Spec.wavHeaderAt rate n) = 44%nat
  /\ Buffer.readUInt32LE (Spec.wavHeaderAt rate n) 4 = (36 + 2 * n)%Z
  /\ Buffer.readUInt32LE (Spec.wavHeaderAt rate n) 24 = rate
  /\ Buffer.readUInt32LE (Spec.wavHeaderAt rate n) 28 = (2 * rate)%Z
  /\ Buffer.readUInt32LE (Spec.wavHeaderAt rate n) 40 = (2 * n)%Z.
Proof.
  intros Hn Hmax Hr Hrmax.
  assert (Hc := le32_value (36 + 2 * n) ltac:(lia)).
  assert (Hd := le32_value (2 * n) ltac:(lia)).
  assert (He := le32_value rate ltac:(lia)).
  assert (Hf := le32_value (rate * 2) ltac:(lia)).
  unfold Spec.wavHeaderAt.
  replace (2 * rate)%Z with (rate * 2)%Z by lia.
  remember (36 + 2 * n)%Z as c eqn:Ec.
  remember (2 * n)%Z as d eqn:Ed.
  remember (rate * 2)%Z as r2 eqn:Er.
  clear Ec Ed Er Hn Hmax Hr Hrmax.
  unfold Spec.le32, Spec.le16.
  repeat match goal with
    | |- context [(?x mod 256)%Z] =>
        first [ mentions x c | mentions x d | mentions x r2
              | mentions x rate ];
        let b := fresh "b" in
        set (b := (x mod 256)%Z) in *; clearbody b
    end.
  split; [reflexivity |].
  split; [exact Hc |].
  split; [exact He |].
  split; [exact Hf | exact Hd].
Qed.

(** X3: [getWavHeader] returns a header exactly when the sample count n
    satisfies 0 <= n <= 2147483629 and the sample rate satisfies
    0 <= rate <= 2147483647 (so that every 32-bit field can hold its
    value) and throws otherwise; the header it returns is 44 bytes long
    and reads back ChunkSize = 36 + 2n, SampleRate = rate,
    ByteRate = 2 * rate and Subchunk2Size = 2n; the two revisions agree on
    every input. *)
Theorem wav_header_domain (n rate : Z) :
  Part001.getWavHeader n rate = Service.getWavHeader n rate
  /\ (Service.getWavHeader n rate <> None
      <-> (0 <= n <= 2147483629)%Z /\ (0 <= rate <= 2147483647)%Z)
  /\ (forall header : Buffer.t,
        Service.getWavHeader n rate = Some header ->
        length header = 44%nat
        /\ Buffer.readUInt32LE header 4 = (36 + 2 * n)%Z
        /\ Buffer.readUInt32LE header 24 = rate
        /\ Buffer.readUInt32LE header 28 = (2 * rate)%Z
        /\ Buffer.readUInt32LE header 40 = (2 * n)%Z).
Proof.
  split; [reflexivity |].
  destruct (Z_le_dec 0 n) as [Hn | Hn];
    [destruct (Z_le_dec n 2147483629) as [Hn' | Hn'];
     [destruct (Z_le_dec 0 rate) as [Hr | Hr];
      [destruct (Z_le_dec rate 2147483647) as [Hr' | Hr'] |] |] |];
    try (rewrite getWavHeader_fails by lia;
         split; [split; [intro H; now contradiction H | lia]
                | intros header H; discriminate H]).
  rewrite getWavHeader_succeeds by lia.
  split.
  - split; [lia | discriminate].
  - intros header H. injection H as <-.
    apply wavHeaderAt_fields; lia.
Qed.

Lemma wav_header_domain_witness :
  length (Spec.wavHeaderAt 22050 10) = 44%nat
  /\ Buffer.readUInt32LE (Spec.wavHeaderAt 22050 10) 28 = 44100%Z.
Proof.
  destruct (wav_header_domain 10 22050) as (_ & _ & Hfields).
  destruct (Hfields (Spec.wavHeaderAt 22050 10)) as (Hl & _ & _ & Hb & _).
  - apply getWavHeader_succeeds; lia.
  - split; [exact Hl | exact Hb].
Defined.

(** ** SampleRenderer, simple mode *)

Lemma nth_concat_uniform {A : Type} (n : nat) (d : A) :
  forall (ls : list (list A)) (j i : nat) (l : list A),
    Forall (fun l' => length l' = n) ls ->
    nth_error ls j = Some l -> (i < n)%nat ->
    nth (n * j + i) (concat ls) d = nth i l d.
Proof.
  induction ls as [| l0 rest IH]; intros j i l Hall Hj Hi.
  - destruct j; discriminate Hj.
  - inversion Hall as [| ? ? Hl0 Hrest]; subst.
    destruct j as [| j']; cbn [nth_error concat] in *.
    + injection Hj as ->. rewrite Nat.mul_0_r, Nat.add_0_l.
      apply app_nth1. lia.
    + rewrite app_nth2 by lia.
      replace (length l0 * S j' + i - length l0)%nat
        with (length l0 * j' + i)%nat by lia.
      now apply IH.
Qed.

Lemma nth_map_seq {A : Type} (f : nat -> A) (n i : nat) (d : A) :
  (i < n)%nat -> nth i (map f (seq 0 n)) d = f i.
Proof.
  intro Hi.
  rewrite (nth_indep _ d (f 0%nat)) by (now rewrite length_map, length_seq).
  rewrite (map_nth f (seq 0 n) 0%nat i). now rewrite seq_nth.
Qed.

Lemma simple_loop_count : JS.loop_count (44100 * 0.1) = 4410%nat.
Proof. unfold JS.loop_count. rewrite (Zceil_eq 4410) by lra. reflexivity. Qed.

Lemma simple_mode_runs (days : list ContributionDay) :
  Service.createSamplesFromContributions days
  = concat
      (map (fun day =>
              map (fun i : nat =>
                     sin (2 * PI
                          * Service.getFrequencyFromContribution
                              (contributionCount day)
                          * (INR i / 44100)) * 0.5)
                  (seq 0 4410))
           days).
Proof.
  unfold Service.createSamplesFromContributions.
  now rewrite simple_loop_count, flat_map_concat_map, map_map.
Qed.

Lemma simple_mode_revisions_agree (days : list ContributionDay) :
  Part001.simpleSamples days = Service.createSamplesFromContributions days.
Proof.
  unfold Part001.simpleSamples, Service.createSamplesFromContributions,
    Part001.sampleRate.
  f_equal. apply map_ext. intro day. apply freq_revisions_agree.
Qed.

(** X4: simple mode renders day j of the input as samples 4410*j to
    4410*j + 4409 of the output: sample 4410*j + i is
    0.5 * sin(2*pi*f*i/44100) for the day's frequency f, so every day
    starts on a zero sample; the rendering of a concatenation of day
    sequences is the concatenation of their renderings; and the inline
    loop of the other revision computes the same samples. *)
Theorem simple_mode_sample_at (days : list ContributionDay) :
  (forall (j i : nat) (day : ContributionDay),
      nth_error days j = Some day -> (i < 4410)%nat ->
      nth (4410 * j + i) (Service.createSamplesFromContributions days) 0
      = 0.5 * sin (2 * PI
                   * Service.getFrequencyFromContribution
                       (contributionCount day)
                   * (INR i / 44100))
      /\ nth (4410 * j) (Service.createSamplesFromContributions days) 0 = 0)
  /\ (forall more : list ContributionDay,
        Service.createSamplesFromContributions (days ++ more)
        = Service.createSamplesFromContributions days
          ++ Service.createSamplesFromContributions more)
  /\ Part001.simpleSamples days = Service.createSamplesFromContributions days.
Proof.
  split; [| split].
  - intros j i day Hj Hi.
    assert (Hat : forall i', (i' < 4410)%nat ->
              nth (4410 * j + i') (Service.createSamplesFromContributions days) 0
              = 0.5 * sin (2 * PI
                           * Service.getFrequencyFromContribution
                               (contributionCount day)
                           * (INR i' / 44100))).
    { intros i' Hi'. rewrite simple_mode_runs.
      rewrite (nth_concat_uniform 4410 0 _ j i'
                 (map (fun i0 : nat =>
                         sin (2 * PI
                              * Service.getFrequencyFromContribution
                                  (contributionCount day)
                              * (INR i0 / 44100)) * 0.5)
                      (seq 0 4410))).
      - rewrite nth_map_seq by exact Hi'. lra.
      - apply Forall_forall. intros l Hl.
        apply in_map_iff in Hl. destruct Hl as (d' & <- & _).
        now rewrite length_map, length_seq.
      - rewrite nth_error_map, Hj. reflexivity.
      - exact Hi'. }
    split; [now apply Hat |].
    replace (4410 * j)%nat with (4410 * j + 0)%nat by lia.
    rewrite Hat by lia.
    replace (INR 0 / 44100) with 0 by (cbn [INR]; lra).
    rewrite Rmult_0_r, sin_0. lra.
  - intro more. rewrite !simple_mode_runs, map_app. apply concat_app.
  - apply simple_mode_revisions_agree.
Qed.

Lemma simple_mode_sample_at_witness :
  nth 4410
    (Service.createSamplesFromContributions
       [mkDay "2023-01-01" 0; mkDay "2023-01-02" 60]) 0
  = 0.
Proof.
  destruct (simple_mode_sample_at
              [mkDay "2023-01-01" 0; mkDay "2023-01-02" 60]) as (Hat & _).
  destruct (Hat 1%nat 0%nat (mkDay "2023-01-02" 60)) as (_ & Hzero).
  - reflexivity.
  - lia.
  - exact Hzero.
Defined.

Lemma simple_mode_amplitude (days : list ContributionDay) (s : R) :
  In s (Service.createSamplesFromContributions days) -> -0.5 <= s <= 0.5.
Proof.
  rewrite simple_mode_runs. intro Hin.
  apply in_concat in Hin. destruct Hin as (run & Hrun & Hs).
  apply in_map_iff in Hrun. destruct Hrun as (day & <- & _).
  apply in_map_iff in Hs. destruct Hs as (i & <- & _).
  pose proof (SIN_bound
                (2 * PI
                 * Service.getFrequencyFromContribution (contributionCount day)
                 * (INR i / 44100))).
  lra.
Qed.

Lemma truncate_half_open (y : R) (m : Z) :
  (0 <= m)%Z -> - IZR m - 1 < y < IZR m + 1 ->
  (- m <= JS.truncate y <= m)%Z.
Proof.
  intros Hm [Hlo Hhi].
  destruct (Rle_dec 0 y) as [Hy | Hy].
  - pose proof (truncate_nonneg y Hy) as [Hq _].
    pose proof (proj1 (truncate_sign y) Hy).
    assert (IZR (JS.truncate y) < IZR (m + 1)) by (rewrite plus_IZR; lra).
    apply lt_IZR in H0. lia.
  - pose proof (truncate_neg y ltac:(lra)) as [_ Hq].
    pose proof (proj2 (truncate_sign y) ltac:(lra)).
    assert (IZR (- m - 1) < IZR (JS.truncate y))
      by (rewrite minus_IZR, opp_IZR; lra).
    apply lt_IZR in H0. lia.
Qed.

(** X5: simple mode never clips: every sample it renders lies in
    [-0.5, 0.5], the clamp of the quantizer leaves it unchanged, and every
    16-bit value of the resulting PCM data lies in [-16383, 16383]. *)
Theorem simple_mode_never_clips (days : list ContributionDay) :
  Forall (fun s => -0.5 <= s <= 0.5 /\ Rmax (-1) (Rmin 1 s) = s)
    (Service.createSamplesFromContributions days)
  /\ Forall (fun v => (-16383 <= v <= 16383)%Z)
       (Spec.decodeInt16LE
          (Spec.pcmData (Service.createSamplesFromContributions days))).
Proof.
  split.
  - apply Forall_forall. intros s Hs.
    pose proof (simple_mode_amplitude days s Hs) as Hb.
    split; [exact Hb |]. apply clamp_id. lra.
  - rewrite pcmData_decode. apply Forall_map, Forall_forall.
    intros s Hs. pose proof (simple_mode_amplitude days s Hs) as Hb.
    unfold Spec.quantize. rewrite clamp_id by lra.
    apply (truncate_half_open _ 16383); [lia | lra].
Qed.

Lemma createWavData_fails (samples : list R) :
  (4294967295 < 36 + 2 * Z.of_nat (length samples))%Z ->
  Service.createWavData samples = None.
Proof.
  intro Hbig. unfold Service.createWavData.
  pose proof (writeSamples_bytes samples 0 [] eq_refl) as Hw.
  cbn [app] in Hw. rewrite Hw.
  rewrite getWavHeader_fails by lia. reflexivity.
Qed.

(** X6: the outcome of [generateAndSendMusic] in the refactored service
    is a 404 exactly when the collaborator returns null; for n fetched
    days with n <= 486957 it is an MP3 response whose WAV file has
    44 + 8820n bytes (so an empty calendar gives the bare header), and for
    more days the header writer throws and the request is rejected. *)
Theorem simple_mode_outcome
    (fetchContributionDays : string -> option (list ContributionDay))
    (username : string) (isStream : bool) :
  (fetchContributionDays username = None ->
     Service.generateAndSendMusic fetchContributionDays username isStream
     = Service.Status404 "User's contribution data could not be found.")
  /\ (forall days : list ContributionDay,
        fetchContributionDays username = Some days ->
        ((Z.of_nat (length days) <= 486957)%Z ->
           exists wavData : Buffer.t,
             Service.generateAndSendMusic fetchContributionDays username
               isStream
             = Service.Mp3Response ("temp/" ++ username ++ ".wav")
                 ("temp/" ++ username ++ ".mp3") wavData isStream
             /\ Z.of_nat (length wavData)
                = (44 + 8820 * Z.of_nat (length days))%Z
             /\ Buffer.readUInt32LE wavData 40
                = (8820 * Z.of_nat (length days))%Z)
        /\ ((486957 < Z.of_nat (length days))%Z ->
              Service.generateAndSendMusic fetchContributionDays username
                isStream
              = Service.Rejected)).
Proof.
  split.
  - intro Hnull. unfold Service.generateAndSendMusic. now rewrite Hnull.
  - intros days Hfetch.
    assert (Hlen : Z.of_nat
                     (length (Service.createSamplesFromContributions days))
                   = (4410 * Z.of_nat (length days))%Z)
      by (rewrite simple_mode_length; lia).
    unfold Service.generateAndSendMusic. rewrite Hfetch. split.
    + intro Hsmall.
      rewrite createWavData_bytes by lia. rewrite Hlen.
      eexists. split; [reflexivity |].
      destruct (wavHeader_fields (4410 * Z.of_nat (length days)))
        as (Hl & _ & _ & _ & _ & _ & _ & _ & _ & _ & _ & _ & _ & Hd);
        try lia.
      split.
      * rewrite length_app, Hl, pcmData_length, simple_mode_length. lia.
      * unfold Buffer.readUInt32LE, Buffer.byteAt in *.
        rewrite !app_nth1 by (rewrite Hl; lia).
        rewrite Hd. lia.
    + intro Hbig. now rewrite createWavData_fails by lia.
Qed.

Lemma simple_mode_outcome_witness :
  exists wavData : Buffer.t,
    Service.generateAndSendMusic (fun _ => Some [mkDay "2023-01-01" 0])
      "octocat" true
    = Service.Mp3Response "temp/octocat.wav" "temp/octocat.mp3" wavData true
    /\ Z.of_nat (length wavData) = 8864%Z
    /\ Buffer.readUInt32LE wavData 40 = 8820%Z.
Proof.
  destruct (simple_mode_outcome (fun _ => Some [mkDay "2023-01-01" 0])
              "octocat" true) as (_ & Hdays).
  destruct (Hdays [mkDay "2023-01-01" 0] eq_refl) as (Hsmall & _).
  apply Hsmall. cbn [length]. lia.
Defined.

(** ** FrequencyMapper, RhythmMapper and HarmonyMapper on every input *)

(** X7: the frequency mapper is strictly increasing over the counts
    0 to 100, so days with different counts in that range get different
    pitches, and it is constant from 100 on. *)
Theorem frequency_mapper_strict (c1 c2 : Z) :
  ((0 <= c1 < c2)%Z -> (c2 <= 100)%Z ->
     Service.getFrequencyFromContribution c1
     < Service.getFrequencyFromContribution c2)
  /\ ((100 <= c1)%Z -> (100 <= c2)%Z ->
        Service.getFrequencyFromContribution c1
        = Service.getFrequencyFromContribution c2).
Proof.
  split.
  - intros [H0 Hlt] H100.
    assert (Hc2 : IZR c2 <= 100) by (apply (IZR_le c2 100); lia).
    assert (Hc12 : IZR c1 + 1 <= IZR c2).
    { rewrite <- (plus_IZR c1 1). apply IZR_le. lia. }
    rewrite (freq_pos c2) by lia.
    rewrite Rmin_left by lra.
    destruct (Z.eq_dec c1 0) as [-> | Hnz].
    + rewrite freq_nonpos by lia. lra.
    + rewrite (freq_pos c1) by lia. rewrite Rmin_left by lra. lra.
  - intros H1 H2.
    rewrite (freq_pos c1), (freq_pos c2) by lia.
    assert (100 <= IZR c1) by (apply (IZR_le 100); lia).
    assert (100 <= IZR c2) by (apply (IZR_le 100); lia).
    rewrite !Rmin_right by lra. reflexivity.
Qed.

Lemma frequency_mapper_strict_witness :
  Service.getFrequencyFromContribution 0
  < Service.getFrequencyFromContribution 1
  /\ Service.getFrequencyFromContribution 100
     = Service.getFrequencyFromContribution 5000.
Proof.
  destruct (frequency_mapper_strict 0 1) as (Hlt & _).
  destruct (frequency_mapper_strict 100 5000) as (_ & Heq).
  split; [apply Hlt | apply Heq]; lia.
Defined.

Lemma beat_positive (tempo : R) : 0 < tempo -> 0 < 60 / tempo.
Proof. intro H. apply Rdiv_lt_0_compat; lra. Qed.

Ltac split_bands :=
  repeat match goal with
    | |- context [(?a <=? ?b)%Z] => destruct (Z.leb_spec a b); try lia
    end.

(** X8: for a positive tempo the note duration is positive, between a
    sixteenth note (15/tempo seconds) and a whole note (240/tempo seconds),
    never shorter for a day with more contributions, and halved when the
    tempo is doubled. *)
Theorem rhythm_mapper_monotone (tempo : R) (c1 c2 : Z) :
  0 < tempo ->
  15 / tempo <= Part001.getNoteDurationFromContribution c1 tempo <= 240 / tempo
  /\ 0 < Part001.getNoteDurationFromContribution c1 tempo
  /\ ((c1 <= c2)%Z ->
        Part001.getNoteDurationFromContribution c1 tempo
        <= Part001.getNoteDurationFromContribution c2 tempo)
  /\ Part001.getNoteDurationFromContribution c1 (2 * tempo)
     = Part001.getNoteDurationFromContribution c1 tempo / 2.
Proof.
  intro Htempo.
  pose proof (beat_positive tempo Htempo) as Hbeat.
  assert (H15 : 15 / tempo = 60 / tempo / 4) by (field; lra).
  assert (H240 : 240 / tempo = 60 / tempo * 4) by (field; lra).
  assert (H2 : 60 / (2 * tempo) = 60 / tempo / 2) by (field; lra).
  rewrite H15, H240.
  unfold Part001.getNoteDurationFromContribution. rewrite H2.
  split; [| split; [| split]].
  - split_bands; lra.
  - split_bands; lra.
  - intro Hle. split_bands; lra.
  - split_bands; lra.
Qed.

Lemma rhythm_mapper_monotone_witness :
  Part001.getNoteDurationFromContribution 7 90
  <= Part001.getNoteDurationFromContribution 30 90
  /\ 0 < Part001.getNoteDurationFromContribution 7 90.
Proof.
  assert (Ht : 0 < 90) by lra.
  destruct (rhythm_mapper_monotone 90 7 30 Ht) as (_ & Hpos & Hmono & _).
  split; [apply Hmono; lia | exact Hpos].
Defined.

(** X9: whenever a chord is returned for a pitch of the frequency mapper
    the count is at least 10, the chord has two or three pitches, starts
    with the base pitch, and all its pitches lie between the base and
    1.5 times the base, hence between 261.63 Hz and 1569.75 Hz, far below
    the 22050 Hz a 44100 Hz sample rate can represent; no chord is
    returned exactly for counts below 10. *)
Theorem harmony_mapper_pitch_range (count : Z) :
  match Part001.getChordFromContribution count
          (Part001.getFrequencyFromContribution count) with
  | Some pitches =>
      (10 <= count)%Z
      /\ (2 <= length pitches <= 3)%nat
      /\ hd 0 pitches = Part001.getFrequencyFromContribution count
      /\ Forall
           (fun pitch =>
              Part001.getFrequencyFromContribution count <= pitch
              /\ pitch <= 1.5 * Part001.getFrequencyFromContribution count
              /\ 261.63 <= pitch <= 1569.75)
           pitches
  | None => (count < 10)%Z
  end.
Proof.
  rewrite freq_revisions_agree.
  pose proof (freq_range count) as [Hlo Hhi].
  set (base := Service.getFrequencyFromContribution count) in *.
  unfold Part001.getChordFromContribution.
  split_bands;
    (split; [lia |]; split; [cbn [length]; lia |]; split; [reflexivity |]);
    repeat (apply Forall_cons; [split; [| split]; lra |]);
    apply Forall_nil.
Qed.

(** ** Amplitude of the waveforms and of the custom rendering *)

Lemma fmod_unit (t p : R) :
  0 < p -> 0 <= Spec.fmod t p / p < 1.
Proof.
  intro Hp. unfold Spec.fmod.
  replace ((t - p * IZR (Zfloor (t / p))) / p)
    with (t / p - IZR (Zfloor (t / p))) by (field; lra).
  pose proof (Zfloor_bound (t / p)). lra.
Qed.

Lemma exp_decay_range (t : R) : 0 <= t -> 0 < exp (- t * 5) <= 1.
Proof.
  intro Ht. split; [apply exp_pos |].
  destruct (Req_dec t 0) as [-> | Hnz].
  - replace (- 0 * 5) with 0 by ring. rewrite exp_0. lra.
  - rewrite <- exp_0. left. apply exp_increasing. lra.
Qed.

Lemma triangle_range (x : R) : -1 <= 2 / PI * asin x <= 1.
Proof.
  pose proof PI_RGT_0 as Hpi. pose proof (asin_bound x) as [Hlo Hhi].
  assert (Hk : 0 < 2 / PI) by (apply Rdiv_lt_0_compat; lra).
  assert (Hone : 2 / PI * (PI / 2) = 1) by (field; lra).
  split.
  - assert (Hm : 2 / PI * - (PI / 2) = -1) by (field; lra).
    rewrite <- Hm. apply Rmult_le_compat_l; lra.
  - rewrite <- Hone. apply Rmult_le_compat_l; lra.
Qed.

Lemma sign_range (x : R) : -1 <= JS.Math_sign x <= 1.
Proof.
  unfold JS.Math_sign.
  destruct (Rlt_dec 0 x); [lra |]. destruct (Rlt_dec x 0); lra.
Qed.

Lemma selector_cases (instrumentId : Z) :
  instrumentId = 1%Z \/ instrumentId = 2%Z \/ instrumentId = 3%Z
  \/ instrumentId = 4%Z \/ instrumentId = 5%Z \/ instrumentId = 6%Z
  \/ instrumentId = 7%Z \/ instrumentId = 8%Z
  \/ (instrumentId < 1 \/ 8 < instrumentId)%Z.
Proof. lia. Qed.

Lemma waveform_range (random : nat -> R) (instrumentId : Z)
    (f t : R) (k : nat) :
  (forall n, 0 <= random n < 1) -> 0 < f -> 0 <= t ->
  -1 <= fst (Part001.getInstrumentWaveform random instrumentId f t k) <= 1.
Proof.
  intros Hrandom Hf Ht.
  assert (Hsine : forall x, -1 <= sin x <= 1) by apply SIN_bound.
  destruct (selector_cases instrumentId)
    as [-> | [-> | [-> | [-> | [-> | [-> | [-> | [-> | Hout]]]]]]]].
  - apply Hsine.
  - cbn [Part001.getInstrumentWaveform ret fst].
    pose proof (Hsine (2 * PI * f * t)).
    pose proof (Hsine (2 * PI * f * 2 * t)). lra.
  - apply triangle_range.
  - cbn [Part001.getInstrumentWaveform ret fst].
    assert (Hp : 0 < 1 / f) by (apply Rdiv_lt_0_compat; lra).
    rewrite rem_nonneg by lra.
    pose proof (fmod_unit t (1 / f) Hp) as Hu.
    replace (2 * Spec.fmod t (1 / f) / (1 / f))
      with (2 * (Spec.fmod t (1 / f) / (1 / f))) by (field; lra).
    lra.
  - apply sign_range.
  - cbn [Part001.getInstrumentWaveform].
    unfold bind, Part001.Math_random, ret. cbn [fst].
    pose proof (Hrandom k). pose proof (exp_decay_range t Ht). nra.
  - cbn [Part001.getInstrumentWaveform ret fst].
    pose proof (Hsine (2 * PI * f * t)).
    pose proof (Hsine (2 * PI * f * t * 0.5)). nra.
  - apply Hsine.
  - rewrite waveform_fallback by exact Hout. apply Hsine.
Qed.

(** X10: with draws in [0, 1), every waveform, whatever the selector,
    stays within [-1, 1] at every frequency f > 0 and time t >= 0. *)
Theorem waveform_amplitude (random : nat -> R) (instrumentId : Z)
    (f t : R) (k : nat) :
  (forall n, 0 <= random n < 1) -> 0 < f -> 0 <= t ->
  -1 <= fst (Part001.getInstrumentWaveform random instrumentId f t k) <= 1.
Proof. apply waveform_range. Qed.

Lemma waveform_amplitude_witness :
  -1 <= fst (Part001.getInstrumentWaveform (fun _ => / 2) 4 440 (/ 100)
               0%nat) <= 1.
Proof.
  apply waveform_amplitude; [intro; lra | lra | lra].
Defined.

Lemma mapM_Forall {A B : Type} (P : B -> Prop) (f : A -> Rand B)
    (l : list A) :
  (forall x k, In x l -> P (fst (f x k))) ->
  forall k, Forall P (fst (mapM f l k)).
Proof.
  induction l as [| x xs IH]; intros Hf k.
  - constructor.
  - rewrite mapM_cons. cbn [fst]. constructor.
    + apply Hf. now left.
    + apply IH. intros y k' Hy. apply Hf. now right.
Qed.

Lemma sum_range (values : list R) :
  Forall (fun v => -1 <= v <= 1) values ->
  - INR (length values) <= fold_right Rplus 0 values <= INR (length values).
Proof.
  induction 1 as [| v rest Hv _ IH].
  - cbn [fold_right length INR]. lra.
  - cbn [fold_right length]. rewrite S_INR. lra.
Qed.

Lemma mean_range (values : list R) :
  Forall (fun v => -1 <= v <= 1) values -> -1 <= Spec.mean values <= 1.
Proof.
  intro Hall. pose proof (sum_range values Hall) as Hsum.
  unfold Spec.mean.
  destruct values as [| v rest].
  - cbn [fold_right length INR]. unfold Rdiv. rewrite Rmult_0_l. lra.
  - assert (Hn : 0 < INR (length (v :: rest)))
      by (apply lt_0_INR; cbn [length]; lia).
    set (n := INR (length (v :: rest))) in *.
    set (total := fold_right Rplus 0 (v :: rest)) in *.
    split.
    + apply Rmult_le_reg_r with n; [exact Hn |].
      unfold Rdiv. rewrite Rmult_assoc, Rinv_l by lra. lra.
    + apply Rmult_le_reg_r with n; [exact Hn |].
      unfold Rdiv. rewrite Rmult_assoc, Rinv_l by lra. lra.
Qed.

Lemma noteSample_single (waveform : R -> R -> Rand R) (volume freq : R)
    (i k : nat) :
  Part001.noteSample waveform volume freq None i k
  = (fst (waveform freq (INR i / 44100) k) * volume,
     snd (waveform freq (INR i / 44100) k)).
Proof.
  unfold Part001.noteSample, bind, ret, Part001.sampleRate.
  now destruct (waveform freq (INR i / 44100) k).
Qed.

Lemma sample_time_nonneg (i : nat) : 0 <= INR i / 44100.
Proof. pose proof (pos_INR i). apply Rle_mult_inv_pos; lra. Qed.

Lemma noteSample_range (random : nat -> R) (instrumentId : Z)
    (volume freq : R) (chord : option (list R)) (i k : nat) :
  (forall n, 0 <= random n < 1) -> 0 <= volume -> 0 < freq ->
  (forall pitches, chord = Some pitches -> Forall (fun p => 0 < p) pitches) ->
  - volume
  <= fst (Part001.noteSample
            (Part001.getInstrumentWaveform random instrumentId)
            volume freq chord i k)
  <= volume.
Proof.
  intros Hrandom Hvol Hfreq Hchord.
  pose proof (sample_time_nonneg i) as Ht.
  assert (Hscale : forall a, -1 <= a <= 1 -> - volume <= a * volume <= volume)
    by (intros a Ha; nra).
  destruct chord as [pitches |].
  - rewrite noteSample_chord_mean. apply Hscale, mean_range.
    apply mapM_Forall. intros pitch k' Hin.
    apply waveform_range; try assumption.
    specialize (Hchord pitches eq_refl).
    rewrite Forall_forall in Hchord. now apply Hchord.
  - rewrite noteSample_single. cbn [fst]. apply Hscale.
    now apply waveform_range.
Qed.

Lemma chord_pitches_positive (count : Z) (base : R) (pitches : list R) :
  0 < base ->
  Part001.getChordFromContribution count base = Some pitches ->
  Forall (fun p => 0 < p) pitches.
Proof.
  intros Hbase. unfold Part001.getChordFromContribution.
  split_bands; intro Hsome; try discriminate Hsome; injection Hsome as <-;
    repeat (apply Forall_cons; [lra |]); apply Forall_nil.
Qed.

Lemma customSamples_range (random : nat -> R) (instrumentId : Z)
    (tempo volume : option R) (days : list ContributionDay) (k : nat) :
  (forall n, 0 <= random n < 1) ->
  0 <= Part001.volumeOrDefault volume ->
  Forall
    (fun s =>
       - Part001.volumeOrDefault volume <= s <= Part001.volumeOrDefault volume)
    (fst (Part001.customSamples random instrumentId tempo volume days k)).
Proof.
  intros Hrandom Hvol.
  unfold Part001.customSamples. rewrite renderSamples_runs. cbn [fst].
  apply Forall_concat, mapM_Forall.
  intros note k' Hnote.
  unfold Part001.frequenciesAndDurations in Hnote.
  apply in_map_iff in Hnote. destruct Hnote as (day & <- & _).
  unfold Part001.noteSamples. cbn [Part001.freq Part001.chord].
  apply mapM_Forall. intros i k'' _.
  assert (Hbase : 0 < Part001.getFrequencyFromContribution
                        (contributionCount day)).
  { rewrite freq_revisions_agree.
    pose proof (freq_range (contributionCount day)). lra. }
  apply noteSample_range; try assumption.
  intros pitches Hp. now apply (chord_pitches_positive _ _ _ Hbase Hp).
Qed.

(** X11: the custom rendering never clips when the volume is within
    [0, 1]: with draws in [0, 1), every sample lies between -volume and
    +volume, for every instrument, tempo and day sequence, and the clamp of
    the quantizer leaves it unchanged. *)
Theorem custom_mode_never_clips (random : nat -> R) (instrumentId : Z)
    (tempo volume : option R) (days : list ContributionDay) (k : nat) :
  (forall n, 0 <= random n < 1) ->
  0 <= Part001.volumeOrDefault volume <= 1 ->
  Forall
    (fun s =>
       - Part001.volumeOrDefault volume <= s <= Part001.volumeOrDefault volume
       /\ Rmax (-1) (Rmin 1 s) = s)
    (fst (Part001.customSamples random instrumentId tempo volume days k)).
Proof.
  intros Hrandom [Hlo Hhi].
  pose proof (customSamples_range random instrumentId tempo volume days k
                Hrandom Hlo) as Hall.
  eapply Forall_impl; [| exact Hall].
  intros s Hs. split; [exact Hs |]. apply clamp_id. lra.
Qed.

Lemma custom_mode_never_clips_witness :
  Forall
    (fun s =>
       - Part001.volumeOrDefault None <= s <= Part001.volumeOrDefault None
       /\ Rmax (-1) (Rmin 1 s) = s)
    (fst (Part001.customSamples (fun _ => / 2) 6 None None
            [mkDay "2023-01-02" 60] 0%nat)).
Proof.
  apply custom_mode_never_clips.
  - intro n. lra.
  - cbn [Part001.volumeOrDefault]. lra.
Defined.

(** ** Use of the random source *)

Lemma mapM_draws {A B : Type} (f : A -> Rand B) (cost : A -> nat)
    (l : list A) :
  (forall x k, snd (f x k) = (k + cost x)%nat) ->
  forall k, snd (mapM f l k) = (k + list_sum (map cost l))%nat.
Proof.
  intro Hf. induction l as [| x xs IH]; intro k.
  - cbn. lia.
  - rewrite mapM_cons. cbn [snd map list_sum fold_right].
    rewrite IH, Hf. fold (list_sum (map cost xs)). lia.
Qed.

Lemma list_sum_constant {A : Type} (c : nat) (l : list A) :
  list_sum (map (fun _ => c) l) = (length l * c)%nat.
Proof.
  induction l as [| x xs IH]; [reflexivity |].
  cbn [map length Nat.mul]. change (list_sum (c :: map (fun _ => c) xs))
    with (c + list_sum (map (fun _ => c) xs))%nat.
  now rewrite IH.
Qed.

Lemma noise_draws_once (random : nat -> R) (freq t : R) (k : nat) :
  snd (Part001.getInstrumentWaveform random 6 freq t k) = (k + 1)%nat.
Proof. cbn. lia. Qed.

Lemma noteSample_noise_draws (random : nat -> R) (volume freq : R)
    (chord : option (list R)) (i k : nat) :
  snd (Part001.noteSample (Part001.getInstrumentWaveform random 6)
         volume freq chord i k)
  = (k + match chord with
         | Some pitches => length pitches
         | None => 1
         end)%nat.
Proof.
  destruct chord as [pitches |].
  - unfold Part001.noteSample.
    unfold bind at 1. unfold bind at 1.
    rewrite foldM_sum. unfold ret. cbn [snd].
    rewrite (mapM_draws _ (fun _ => 1%nat))
      by (intros; apply noise_draws_once).
    rewrite list_sum_constant. lia.
  - rewrite noteSample_single. cbn [snd]. apply noise_draws_once.
Qed.

(** X12: the random source is consulted only by instrument 6, and then
    exactly once per pitch per sample: rendering with another instrument
    leaves the number of draws unchanged, and rendering with instrument 6
    adds, for each day, its sample count times the size of its chord (one
    pitch when the day has no chord). *)
Theorem random_draws_per_sample (random : nat -> R) (instrumentId : Z)
    (tempo volume : option R) (days : list ContributionDay) (k : nat) :
  (instrumentId <> 6%Z ->
     snd (Part001.customSamples random instrumentId tempo volume days k) = k)
  /\ snd (Part001.customSamples random 6 tempo volume days k)
     = (k + list_sum
              (map (fun day =>
                      Z.to_nat
                        (JS.Math_floor
                           (44100 * Part001.getNoteDurationFromContribution
                                      (contributionCount day)
                                      (Part001.tempoOrDefault tempo)))
                      * match Part001.getChordFromContribution
                                (contributionCount day)
                                (Part001.getFrequencyFromContribution
                                   (contributionCount day)) with
                        | Some pitches => length pitches
                        | None => 1
                        end)
                   days))%nat.
Proof.
  split.
  - intro Hid. unfold Part001.customSamples.
    now rewrite renderSamples_draw_free.
  - unfold Part001.customSamples. rewrite renderSamples_runs. cbn [snd].
    rewrite (mapM_draws _
               (fun note =>
                  Z.to_nat (JS.Math_floor (44100 * Part001.noteDuration note))
                  * match Part001.chord note with
                    | Some pitches => length pitches
                    | None => 1
                    end)%nat).
    + unfold Part001.frequenciesAndDurations. now rewrite map_map.
    + intros note k'. unfold Part001.noteSamples.
      rewrite loop_count_IZR.
      rewrite (mapM_draws _
                 (fun _ => match Part001.chord note with
                           | Some pitches => length pitches
                           | None => 1%nat
                           end))
        by (intros; apply noteSample_noise_draws).
      now rewrite list_sum_constant, length_seq.
Qed.

Lemma random_draws_per_sample_witness :
  snd (Part001.customSamples (fun _ => / 2) 3 (Some 90) None
         [mkDay "2023-01-02" 60] 5%nat)
  = 5%nat.
Proof.
  destruct (random_draws_per_sample (fun _ => / 2) 3 (Some 90) None
              [mkDay "2023-01-02" 60] 5) as (Hfree & _).
  apply Hfree. lia.
Defined.

(** ** Size of the custom WAV file and edge tempos *)

Lemma customWavData_fst (random : nat -> R) (instrumentId : Z)
    (tempo volume : option R) (days : list ContributionDay) (k : nat) :
  fst (Part001.customWavData random instrumentId tempo volume days k)
  = Service.createWavData
      (fst (Part001.customSamples random instrumentId tempo volume days k)).
Proof.
  unfold Part001.customWavData, bind, ret.
  destruct (Part001.customSamples _ _ _ _ _ k) as [samples k'].
  cbn [fst]. apply encodeWav_revisions_agree.
Qed.

(** X13: the custom WAV file of a day sequence whose per-day sample
    counts sum to N has 44 + 2N bytes, with Subchunk2Size = 2N and
    SampleRate = 44100 in its header, as long as 36 + 2N fits the 32-bit
    ChunkSize field; beyond that no file is produced. *)
Theorem custom_mode_wav_size (random : nat -> R) (instrumentId : Z)
    (tempo volume : option R) (days : list ContributionDay) (k : nat) :
  let total :=
    Z.of_nat
      (list_sum
         (map (fun day =>
                 Z.to_nat
                   (JS.Math_floor
                      (44100 * Part001.getNoteDurationFromContribution
                                 (contributionCount day)
                                 (Part001.tempoOrDefault tempo))))
              days)) in
  ((36 + 2 * total <= 4294967295)%Z ->
     exists wavData : Buffer.t,
       fst (Part001.customWavData random instrumentId tempo volume days k)
       = Some wavData
       /\ Z.of_nat (length wavData) = (44 + 2 * total)%Z
       /\ Buffer.readUInt32LE wavData 24 = 44100%Z
       /\ Buffer.readUInt32LE wavData 40 = (2 * total)%Z)
  /\ ((4294967295 < 36 + 2 * total)%Z ->
        fst (Part001.customWavData random instrumentId tempo volume days k)
        = None).
Proof.
  cbv zeta. rewrite customWavData_fst.
  rewrite <- (customSamples_length random instrumentId tempo volume days k).
  set (samples :=
         fst (Part001.customSamples random instrumentId tempo volume days k)).
  split.
  - intro Hfit. rewrite createWavData_bytes by exact Hfit.
    eexists. split; [reflexivity |].
    destruct (wavHeader_fields (Z.of_nat (length samples)))
      as (Hl & _ & _ & _ & _ & _ & _ & _ & Hrate & _ & _ & _ & _ & Hd);
      try lia.
    split; [| split].
    + rewrite length_app, Hl, pcmData_length. lia.
    + unfold Buffer.readUInt32LE, Buffer.byteAt in *.
      rewrite !app_nth1 by (rewrite Hl; lia). exact Hrate.
    + unfold Buffer.readUInt32LE, Buffer.byteAt in *.
      rewrite !app_nth1 by (rewrite Hl; lia). exact Hd.
  - intro Hbig. now apply createWavData_fails.
Qed.

Lemma custom_mode_wav_size_witness :
  exists wavData : Buffer.t,
    fst (Part001.customWavData (fun _ => 0) 1 (Some 120) (Some 0.5)
           [mkDay "2023-01-02" 60] 0%nat)
    = Some wavData
    /\ Z.of_nat (length wavData) = (44 + 2 * 88200)%Z
    /\ Buffer.readUInt32LE wavData 24 = 44100%Z
    /\ Buffer.readUInt32LE wavData 40 = (2 * 88200)%Z.
Proof.
  pose proof (custom_mode_wav_size (fun _ => 0) 1 (Some 120) (Some 0.5)
                [mkDay "2023-01-02" 60] 0) as Hsize.
  cbv zeta in Hsize.
  cbn [map list_sum fold_right contributionCount] in Hsize.
  assert (Htempo : Part001.tempoOrDefault (Some 120) = 120).
  { unfold Part001.tempoOrDefault. destruct (Req_dec_T 120 0); [lra | easy]. }
  assert (Hn : JS.Math_floor
                 (44100 * Part001.getNoteDurationFromContribution 60 120)
               = 88200%Z).
  { unfold Part001.getNoteDurationFromContribution, JS.Math_floor.
    cbn [Z.leb Z.compare Pos.compare Pos.compare_cont].
    apply Zfloor_eq. lra. }
  rewrite Htempo, Hn in Hsize.
  replace (Z.of_nat (Z.to_nat 88200 + 0)) with 88200%Z in Hsize by lia.
  destruct Hsize as (Hfit & _). apply Hfit. lia.
Defined.

Lemma negative_tempo_no_samples (count : Z) (tempo : R) :
  tempo < 0 ->
  Z.to_nat
    (JS.Math_floor
       (44100 * Part001.getNoteDurationFromContribution count tempo))
  = 0%nat.
Proof.
  intro Hneg.
  assert (Hbeat : 60 / tempo < 0).
  { unfold Rdiv. pose proof (Rinv_lt_0_compat tempo Hneg). nra. }
  assert (Hdur : Part001.getNoteDurationFromContribution count tempo < 0).
  { unfold Part001.getNoteDurationFromContribution. split_bands; lra. }
  unfold JS.Math_floor.
  pose proof (Zfloor_bound
                (44100 * Part001.getNoteDurationFromContribution count tempo))
    as [Hfl _].
  assert (IZR (Zfloor
                 (44100 * Part001.getNoteDurationFromContribution count tempo))
          < IZR 0) by lra.
  apply lt_IZR in H. lia.
Qed.

(** X14: the tempo in force is never 0 (a missing or zero tempo becomes
    120, so the beat length is never a division by zero), and a negative
    tempo, which is passed through, renders no sample at all: the WAV file
    is then the bare 44-byte header. *)
Theorem custom_mode_tempo_edges (random : nat -> R) (instrumentId : Z)
    (tempo volume : option R) (days : list ContributionDay) (k : nat) :
  Part001.tempoOrDefault tempo <> 0
  /\ (tempo = None \/ tempo = Some 0 -> Part001.tempoOrDefault tempo = 120)
  /\ (Part001.tempoOrDefault tempo < 0 ->
        fst (Part001.customSamples random instrumentId tempo volume days k)
        = []
        /\ fst (Part001.customWavData random instrumentId tempo volume days k)
           = Some (Spec.wavHeader 0)).
Proof.
  split; [| split].
  - unfold Part001.tempoOrDefault. destruct tempo as [x |]; [| lra].
    destruct (Req_dec_T x 0); [lra | assumption].
  - intros [-> | ->]; cbn [Part001.tempoOrDefault]; [reflexivity |].
    destruct (Req_dec_T 0 0); [reflexivity | lra].
  - intro Hneg.
    assert (Hnil : fst (Part001.customSamples random instrumentId tempo
                          volume days k) = []).
    { apply length_zero_iff_nil. rewrite customSamples_length.
      rewrite (map_ext _ (fun _ => 0%nat))
        by (intro day; now apply negative_tempo_no_samples).
      rewrite list_sum_constant. lia. }
    split; [exact Hnil |].
    rewrite customWavData_fst, Hnil.
    rewrite createWavData_bytes by (cbn [length Z.of_nat]; lia).
    cbn [length Z.of_nat Spec.pcmData flat_map]. now rewrite app_nil_r.
Qed.

Lemma custom_mode_tempo_edges_witness :
  fst (Part001.customSamples (fun _ => 0) 2 (Some (-60)) None
         [mkDay "2023-01-02" 60] 0%nat)
  = [].
Proof.
  destruct (custom_mode_tempo_edges (fun _ => 0) 2 (Some (-60)) None
              [mkDay "2023-01-02" 60] 0) as (_ & _ & Hneg).
  apply Hneg. cbn [Part001.tempoOrDefault].
  destruct (Req_dec_T (-60) 0); lra.
Defined.

(** ** The year page of the refactored service *)

Lemma createWavData_some (samples : list R) (wavData : Buffer.t) :
  Service.createWavData samples = Some wavData ->
  (36 + 2 * Z.of_nat (length samples) <= 4294967295)%Z
  /\ wavData
     = Spec.wavHeader (Z.of_nat (length samples)) ++ Spec.pcmData samples.
Proof.
  intro Hsome.
  destruct (Z_le_dec (36 + 2 * Z.of_nat (length samples)) 4294967295)
    as [Hfit | Hbig].
  - rewrite createWavData_bytes in Hsome by exact Hfit.
    injection Hsome as <-. now split.
  - rewrite createWavData_fails in Hsome by lia. discriminate Hsome.
Qed.

Lemma wavHeader_length (n : Z) : length (Spec.wavHeader n) = 44%nat.
Proof. reflexivity. Qed.

Lemma wav_length (n : Z) (samples : list R) :
  length (Spec.wavHeader n ++ Spec.pcmData samples)
  = (44 + 2 * length samples)%nat.
Proof. now rewrite length_app, pcmData_length, wavHeader_length. Qed.

(** X15: [generateMusicByYear] answers 404 when the collaborator returns
    null or no day, and when a non-empty year is given that no day's date
    starts with; otherwise, for m selected days (all days when the year is
    absent or empty, else those whose date starts with the year, in
    calendar order) with m <= 486957, it serves a page whose WAV file is
    the simple-mode rendering of the selected days, 44 + 8820m bytes long.
    Whatever the input, a page it serves never carries a header-only WAV
    file. *)
Theorem year_page_outcome
    (fetchContributionDays : string -> option (list ContributionDay))
    (username : string) (year : option string) :
  (fetchContributionDays username = None
   \/ fetchContributionDays username = Some [] ->
     Service.generateMusicByYear fetchContributionDays username year
     = Service.YearStatus404
         "User's contribution data could not be found or user is invalid.")
  /\ (forall allDays : list ContributionDay,
        fetchContributionDays username = Some allDays -> allDays <> [] ->
        let selected :=
          if truthy year
          then filter (fun day => String.prefix (interpolate year) (date day))
                      allDays
          else allDays in
        (selected = [] ->
           truthy year = true
           /\ Service.generateMusicByYear fetchContributionDays username year
              = Service.YearStatus404
                  ("No contribution data found for the selected year: "
                   ++ interpolate year))
        /\ (selected <> [] -> (Z.of_nat (length selected) <= 486957)%Z ->
              Service.generateMusicByYear fetchContributionDays username year
              = Service.YearPage
                  ("temp/" ++ username ++ "_" ++ interpolate year ++ ".wav")
                  ("temp/" ++ username ++ "_" ++ interpolate year ++ ".mp3")
                  (Spec.wavHeader (4410 * Z.of_nat (length selected))
                   ++ Spec.pcmData
                        (Service.createSamplesFromContributions selected))))
  /\ (forall (wavPath mp3Path : string) (wavData : Buffer.t),
        Service.generateMusicByYear fetchContributionDays username year
        = Service.YearPage wavPath mp3Path wavData ->
        (8864 <= Z.of_nat (length wavData))%Z).
Proof.
  split; [| split].
  - intros [Hnull | Hempty]; unfold Service.generateMusicByYear.
    + now rewrite Hnull.
    + now rewrite Hempty.
  - intros allDays Hfetch Hne. cbv zeta.
    unfold Service.generateMusicByYear. rewrite Hfetch.
    destruct allDays as [| day0 rest]; [contradiction |].
    cbn [length Nat.eqb].
    set (selected :=
           if truthy year
           then filter (fun day => String.prefix (interpolate year) (date day))
                       (day0 :: rest)
           else day0 :: rest).
    split.
    + intro Hsel. rewrite Hsel. cbn [length Nat.ltb Nat.leb negb].
      split; [| reflexivity].
      unfold selected in Hsel. destruct (truthy year); [reflexivity |].
      discriminate Hsel.
    + intros Hsel Hsmall.
      destruct selected as [| d ds] eqn:Es; [contradiction |].
      cbn [length Nat.ltb Nat.leb negb].
      assert (Hlen : Z.of_nat
                       (length (Service.createSamplesFromContributions
                                  (d :: ds)))
                     = (4410 * Z.of_nat (length (d :: ds)))%Z)
        by (rewrite simple_mode_length; lia).
      rewrite createWavData_bytes by lia.
      now rewrite Hlen.
  - intros wavPath mp3Path wavData.
    unfold Service.generateMusicByYear.
    destruct (fetchContributionDays username) as [allDays |];
      [| discriminate].
    destruct (length allDays =? 0)%nat; [discriminate |].
    set (selected :=
           if truthy year
           then filter (fun day => String.prefix (interpolate year) (date day))
                       allDays
           else allDays).
    destruct selected as [| d ds]; [discriminate |].
    cbn [length Nat.ltb Nat.leb negb].
    destruct (Service.createWavData _) as [data |] eqn:Ewav;
      [| discriminate].
    intro Hpage. injection Hpage as _ _ <-.
    apply createWavData_some in Ewav. destruct Ewav as (_ & ->).
    rewrite wav_length, simple_mode_length. cbn [length]. lia.
Qed.

Lemma year_page_outcome_witness :
  Service.generateMusicByYear
    (fun _ => Some [mkDay "2022-12-31" 4; mkDay "2023-01-01" 0])
    "octocat" (Some "2024"%string)
  = Service.YearStatus404
      "No contribution data found for the selected year: 2024".
Proof.
  destruct (year_page_outcome
              (fun _ => Some [mkDay "2022-12-31" 4; mkDay "2023-01-01" 0])
              "octocat" (Some "2024"%string)) as (_ & Hdays & _).
  destruct (Hdays [mkDay "2022-12-31" 4; mkDay "2023-01-01" 0] eq_refl)
    as (Hnone & _).
  - discriminate.
  - apply Hnone. reflexivity.
Defined.

(** ** The two revisions of the plain endpoint *)

Lemma simple_wav_revisions_agree (days : list ContributionDay) :
  Part001.encodeWav (Part001.simpleSamples days)
  = Service.createWavData (Service.createSamplesFromContributions days).
Proof.
  rewrite simple_mode_revisions_agree. apply encodeWav_revisions_agree.
Qed.

(** X16: on a calendar with at least one week the two revisions of
    [generateAndSendMusic] send the same MP3 response (same files, same
    WAV bytes, same disposition); they differ on an empty list of weeks,
    where the earlier revision answers 404 and the refactored one sends the
    header-only WAV file, and on a missing user, which the earlier revision
    answers with 500 (the property access throws) and the refactored one
    with 404. *)
Theorem plain_endpoint_revisions (username : string) (isStream : bool) :
  (forall (weeks : list (list ContributionDay)) (wavPath mp3Path : string)
          (wavData : Buffer.t) (flag : bool),
      weeks <> [] ->
      (Part001.generateAndSendMusic (Weeks weeks) username isStream
       = Part001.Mp3Response wavPath mp3Path wavData flag
       <-> Service.generateAndSendMusic
             (fun _ => Service.contributionDaysOfResponse (Weeks weeks))
             username isStream
           = Service.Mp3Response wavPath mp3Path wavData flag))
  /\ Part001.generateAndSendMusic (Weeks []) username isStream
     = Part001.Status404 "Kullanıcının katkı verileri bulunamadı."
  /\ Service.generateAndSendMusic
       (fun _ => Service.contributionDaysOfResponse (Weeks []))
       username isStream
     = Service.Mp3Response ("temp/" ++ username ++ ".wav")
         ("temp/" ++ username ++ ".mp3") (Spec.wavHeader 0) isStream
  /\ Part001.generateAndSendMusic UserMissing username isStream
     = Part001.Status500 "Müzik oluşturulurken hata oluştu"
  /\ Service.generateAndSendMusic
       (fun _ => Service.contributionDaysOfResponse UserMissing)
       username isStream
     = Service.Status404 "User's contribution data could not be found.".
Proof.
  split; [| split; [| split; [| split]]]; try reflexivity.
  intros weeks wavPath mp3Path wavData flag Hne.
  unfold Part001.generateAndSendMusic, Service.generateAndSendMusic,
    Service.contributionDaysOfResponse.
  destruct weeks as [| week rest]; [contradiction |].
  cbn [length Nat.eqb].
  rewrite simple_wav_revisions_agree.
  destruct (Service.createWavData _) as [data |].
  - split; intro H; injection H as <- <- <- <-; reflexivity.
  - split; intro H; discriminate H.
Qed.

Lemma plain_endpoint_revisions_witness :
  Part001.generateAndSendMusic (Weeks [[mkDay "2023-01-01" 0]]) "octocat" true
  = Part001.Mp3Response "temp/octocat.wav" "temp/octocat.mp3"
      (Spec.wavHeader 4410
       ++ Spec.pcmData
            (Service.createSamplesFromContributions [mkDay "2023-01-01" 0]))
      true.
Proof.
  destruct (plain_endpoint_revisions "octocat" true) as (Hsame & _).
  apply (Hsame [[mkDay "2023-01-01" 0]]); [discriminate |].
  unfold Service.generateAndSendMusic, Service.contributionDaysOfResponse.
  cbn [flat_map app].
  rewrite createWavData_bytes
    by (rewrite simple_mode_length; cbn [length]; lia).
  rewrite simple_mode_length. reflexivity.
Defined.

(** ** The years offered by the earlier revision *)

(** X17: the list built by the loop of [getUserYears] holds exactly the
    years from the account's creation year to the current year, each once
    and in increasing order: its entry at index i is the creation year
    plus i, and it is empty when the creation year lies in the future. *)
Theorem years_between_range (startYear currentYear : Z) :
  (forall y : Z,
      In y (Part001.yearsBetween startYear currentYear)
      <-> (startYear <= y <= currentYear)%Z)
  /\ length (Part001.yearsBetween startYear currentYear)
     = Z.to_nat (currentYear - startYear + 1)
  /\ (forall i : nat,
        (i < length (Part001.yearsBetween startYear currentYear))%nat ->
        nth i (Part001.yearsBetween startYear currentYear) 0%Z
        = (startYear + Z.of_nat i)%Z).
Proof.
  unfold Part001.yearsBetween. split; [| split].
  - intro y. rewrite in_map_iff. split.
    + intros (i & <- & Hi). apply in_seq in Hi. lia.
    + intros [Hlo Hhi]. exists (Z.to_nat (y - startYear)). split; [lia |].
      apply in_seq. lia.
  - now rewrite length_map, length_seq.
  - intros i Hi. rewrite length_map, length_seq in Hi.
    now apply (nth_map_seq (fun i0 : nat => (startYear + Z.of_nat i0)%Z)).
Qed.

Lemma years_between_range_witness :
  nth 2 (Part001.yearsBetween 2019 2023) 0%Z = 2021%Z.
Proof.
  destruct (years_between_range 2019 2023) as (_ & Hlen & Hnth).
  apply (Hnth 2%nat). rewrite Hlen. lia.
Defined.

(** ** Consistency of the WAV file *)

(** X18: whenever [createWavData] returns a file it is self-consistent:
    the file has 44 + 2n bytes for n samples, its ChunkSize field is the
    file length minus 8, its Subchunk2Size field is the length of the data
    after the header, that data decodes to the quantized samples in order,
    and the other revision's inline encoder returns the same bytes. *)
Theorem wav_file_self_consistent (samples : list R) (wavData : Buffer.t) :
  Service.createWavData samples = Some wavData ->
  Part001.encodeWav samples = Some wavData
  /\ Z.of_nat (length wavData) = (44 + 2 * Z.of_nat (length samples))%Z
  /\ Buffer.readUInt32LE wavData 4 = (Z.of_nat (length wavData) - 8)%Z
  /\ Buffer.readUInt32LE wavData 40 = (Z.of_nat (length wavData) - 44)%Z
  /\ Spec.decodeInt16LE (skipn 44 wavData) = map Spec.quantize samples.
Proof.
  intro Hsome.
  split; [etransitivity; [apply encodeWav_revisions_agree | exact Hsome] |].
  apply createWavData_some in Hsome. destruct Hsome as (Hfit & ->).
  destruct (wavHeader_fields (Z.of_nat (length samples)))
    as (Hl & _ & Hchunk & _ & _ & _ & _ & _ & _ & _ & _ & _ & _ & Hdata);
    try lia.
  assert (Hlen : Z.of_nat
                   (length (Spec.wavHeader (Z.of_nat (length samples))
                            ++ Spec.pcmData samples))
                 = (44 + 2 * Z.of_nat (length samples))%Z)
    by (rewrite wav_length; lia).
  split; [exact Hlen |]. rewrite Hlen.
  split; [| split].
  - unfold Buffer.readUInt32LE, Buffer.byteAt in *.
    rewrite !app_nth1 by (rewrite Hl; lia). rewrite Hchunk. lia.
  - unfold Buffer.readUInt32LE, Buffer.byteAt in *.
    rewrite !app_nth1 by (rewrite Hl; lia). rewrite Hdata. lia.
  - rewrite <- Hl at 1. rewrite skipn_app, skipn_all, Nat.sub_diag.
    cbn [skipn app]. apply pcmData_decode.
Qed.

Lemma wav_file_self_consistent_witness :
  Spec.decodeInt16LE
    (skipn 44 (Spec.wavHeader 2 ++ Spec.pcmData [/ 4; -2]))
  = map Spec.quantize [/ 4; -2].
Proof.
  apply (wav_file_self_consistent [/ 4; -2]
           (Spec.wavHeader 2 ++ Spec.pcmData [/ 4; -2])).
  apply (createWavData_bytes [/ 4; -2]). cbn [length Z.of_nat]. lia.
Defined.

(** ** Note onsets *)

Lemma sine_at_zero (f : R) : sin (2 * PI * f * 0) = 0.
Proof. rewrite Rmult_0_r. apply sin_0. Qed.

Lemma drawFreeWaveform_onset (instrumentId : Z) (f : R) :
  instrumentId <> 4%Z -> instrumentId <> 6%Z ->
  drawFreeWaveform instrumentId f 0 = 0.
Proof.
  intros H4 H6. unfold drawFreeWaveform.
  destruct (selector_cases instrumentId)
    as [-> | [-> | [-> | [-> | [-> | [-> | [-> | [-> | Hout]]]]]]]];
    try contradiction;
    try (rewrite waveform_fallback by exact Hout);
    cbn [Part001.getInstrumentWaveform ret fst].
  - apply sine_at_zero.
  - replace (2 * PI * f * 2 * 0) with (2 * PI * f * 0) by ring.
    rewrite sine_at_zero. lra.
  - rewrite sine_at_zero, asin_0. ring.
  - rewrite sine_at_zero. unfold JS.Math_sign.
    destruct (Rlt_dec 0 0); [lra |]. destruct (Rlt_dec 0 0); [lra | easy].
  - rewrite sine_at_zero. ring.
  - replace (2 * PI * 5 * 0) with 0 by ring. rewrite sin_0.
    replace (2 * PI * f * 0 + 5 * 0) with 0 by ring. apply sin_0.
  - apply sine_at_zero.
Qed.

Lemma sawtooth_onset (f : R) : drawFreeWaveform 4 f 0 = -1.
Proof.
  unfold drawFreeWaveform. cbn [Part001.getInstrumentWaveform ret fst].
  unfold JS.rem.
  replace (0 / (1 / f)) with (IZR 0) by (unfold Rdiv; ring).
  rewrite truncate_IZR. unfold Rdiv. ring.
Qed.

Lemma sum_constant (c : R) (l : list R) :
  fold_right Rplus 0 (map (fun _ => c) l) = INR (length l) * c.
Proof.
  induction l as [| x xs IH].
  - cbn [map fold_right length INR]. ring.
  - cbn [map fold_right length]. rewrite IH, S_INR. ring.
Qed.

Lemma drawFreeSample_onset (pure : R -> R -> R) (c volume freq : R)
    (chord : option (list R)) :
  (forall f, pure f 0 = c) -> chord <> Some [] ->
  drawFreeSample pure volume freq chord 0 = c * volume.
Proof.
  intros Hpure Hchord. unfold drawFreeSample.
  replace (INR 0 / 44100) with 0 by (cbn [INR]; unfold Rdiv; ring).
  destruct chord as [pitches |]; [| now rewrite Hpure].
  rewrite (map_ext _ (fun _ => c)) by (intro; apply Hpure).
  rewrite sum_constant.
  assert (Hn : INR (length pitches) <> 0).
  { apply not_0_INR. destruct pitches; [now contradiction Hchord | discriminate]. }
  f_equal. field. exact Hn.
Qed.

Lemma harmony_chord_nonempty (count : Z) (base : R) :
  Part001.getChordFromContribution count base <> Some [].
Proof.
  unfold Part001.getChordFromContribution. split_bands; discriminate.
Qed.

(** X19: every note of a deterministic instrument other than the
    sawtooth starts on a zero sample: the first sample of a day's run is 0
    for every selector except 4 and 6, whatever the pitch, chord, tempo and
    volume; the sawtooth (selector 4) starts every note at minus the
    volume instead. *)
Theorem note_onsets (random : nat -> R) (instrumentId : Z)
    (tempo volume : option R) (day : ContributionDay) (k : nat) :
  (instrumentId <> 4%Z -> instrumentId <> 6%Z ->
     hd 0 (fst (Part001.customSamples random instrumentId tempo volume
                  [day] k))
     = 0)
  /\ (forall (vol freq : R) (chord : option (list R)),
        chord <> Some [] ->
        fst (Part001.noteSample (Part001.getInstrumentWaveform random 4)
               vol freq chord 0 k)
        = - vol).
Proof.
  split.
  - intros H4 H6. rewrite customSamples_single.
    destruct (Z.to_nat _) as [| n]; [reflexivity |].
    cbn [seq]. rewrite mapM_head.
    rewrite (noteSample_draw_free _ (drawFreeWaveform instrumentId))
      by (intros; now apply waveform_draw_free).
    cbn [fst].
    rewrite (drawFreeSample_onset _ 0).
    + ring.
    + intro f. now apply drawFreeWaveform_onset.
    + pose proof (harmony_chord_nonempty (contributionCount day)
                    (Part001.getFrequencyFromContribution
                       (contributionCount day))) as Hne.
      exact Hne.
  - intros vol freq chord Hchord.
    rewrite (noteSample_draw_free _ (drawFreeWaveform 4))
      by (intros; apply waveform_draw_free; lia).
    cbn [fst]. rewrite (drawFreeSample_onset _ (-1)).
    + ring.
    + apply sawtooth_onset.
    + exact Hchord.
Qed.

Lemma note_onsets_witness :
  hd 0 (fst (Part001.customSamples (fun _ => 0) 3 (Some 90) (Some 1)
               [mkDay "2023-01-02" 60] 0%nat))
  = 0.
Proof.
  destruct (note_onsets (fun _ => 0) 3 (Some 90) (Some 1)
              (mkDay "2023-01-02" 60) 0) as (Hzero & _).
  apply Hzero; lia.
Defined.

(** ** Custom mode against simple mode *)

Lemma customSamples_draw_free_run (random : nat -> R) (instrumentId : Z)
    (tempo volume : option R) (day : ContributionDay) (k : nat) :
  instrumentId <> 6%Z ->
  fst (Part001.customSamples random instrumentId tempo volume [day] k)
  = map (drawFreeSample (drawFreeWaveform instrumentId)
           (Part001.volumeOrDefault volume)
           (Part001.getFrequencyFromContribution (contributionCount day))
           (Part001.getChordFromContribution (contributionCount day)
              (Part001.getFrequencyFromContribution (contributionCount day))))
        (seq 0
           (Z.to_nat
              (JS.Math_floor
                 (44100 * Part001.getNoteDurationFromContribution
                            (contributionCount day)
                            (Part001.tempoOrDefault tempo))))).
Proof.
  intro Hid. rewrite customSamples_single.
  rewrite (mapM_pure _
             (drawFreeSample (drawFreeWaveform instrumentId)
                (Part001.volumeOrDefault volume)
                (Part001.getFrequencyFromContribution (contributionCount day))
                (Part001.getChordFromContribution (contributionCount day)
                   (Part001.getFrequencyFromContribution
                      (contributionCount day))))).
  - reflexivity.
  - intros i k'. apply noteSample_draw_free.
    intros. now apply waveform_draw_free.
Qed.

(** X20: for a day with fewer than 10 contributions (no chord), the
    custom rendering with the sine instrument (selector 1 or any
    unrecognized selector) at volume 0.5, the default, produces the same
    samples as simple mode, index by index, as far as both runs reach;
    only the length of the run depends on the tempo. *)
Theorem custom_sine_matches_simple (random : nat -> R) (instrumentId : Z)
    (tempo volume : option R) (day : ContributionDay) (k i : nat) :
  (instrumentId = 1 \/ instrumentId < 1 \/ 8 < instrumentId)%Z ->
  Part001.volumeOrDefault volume = 0.5 ->
  (contributionCount day < 10)%Z ->
  (i < length (fst (Part001.customSamples random instrumentId tempo volume
                      [day] k)))%nat ->
  (i < 4410)%nat ->
  nth i (fst (Part001.customSamples random instrumentId tempo volume [day] k))
    0
  = nth i (Service.createSamplesFromContributions [day]) 0.
Proof.
  intros Hid Hvol Hcount Hi Hi'.
  assert (Hid6 : instrumentId <> 6%Z) by lia.
  rewrite customSamples_draw_free_run in * by exact Hid6.
  rewrite length_map, length_seq in Hi.
  rewrite nth_map_seq by exact Hi.
  rewrite simple_mode_runs. cbn [map concat]. rewrite app_nil_r.
  rewrite nth_map_seq by exact Hi'.
  assert (Hchord : Part001.getChordFromContribution (contributionCount day)
                     (Part001.getFrequencyFromContribution
                        (contributionCount day)) = None).
  { unfold Part001.getChordFromContribution. split_bands. reflexivity. }
  rewrite Hchord, Hvol, freq_revisions_agree.
  unfold drawFreeSample, drawFreeWaveform.
  destruct Hid as [-> | Hout];
    [| rewrite waveform_fallback by exact Hout]; reflexivity.
Qed.

Lemma custom_sine_matches_simple_witness :
  nth 0 (fst (Part001.customSamples (fun _ => 0) 1 None None
                [mkDay "2023-01-01" 3] 0%nat)) 0
  = nth 0 (Service.createSamplesFromContributions [mkDay "2023-01-01" 3]) 0.
Proof.
  apply custom_sine_matches_simple.
  - now left.
  - reflexivity.
  - cbn [contributionCount]. lia.
  - rewrite customSamples_length.
    cbn [map list_sum fold_right contributionCount Part001.tempoOrDefault].
    assert (Hn : JS.Math_floor
                   (44100 * Part001.getNoteDurationFromContribution 3 120)
                 = 5512%Z).
    { unfold Part001.getNoteDurationFromContribution, JS.Math_floor.
      cbn [Z.leb Z.compare Pos.compare Pos.compare_cont].
      apply Zfloor_eq. lra. }
    rewrite Hn. lia.
  - lia.
Defined.
